(** * Upload handlers of the video-hosting backend: a shallow embedding

    The three Go sources embedded here are

    - [handler_upload_video.go]: [handlerUploadVideo] with a deterministic
      object key and the fast-start rewrite (module [FastStart] below),
      [getVideoAspectRatio] and [processVideoForFastStart];
    - a second version of the same handler that draws a random object key
      and skips the rewrite (module [RandomKey]);
    - [handlerUploadThumbnail].

    A handler is a computation over an explicit world (metadata store, local
    disk, object store) that may return early with an HTTP response, exactly
    as the Go code does with [respondWithError(...); return].  Everything the
    handlers call outside this repository is either a field of [Lib] (pure
    library functions) or of [Oracle] (outcomes of I/O for one request). *)

From Stdlib Require Import ZArith Lia List String Ascii SpecFloat.
From Stdlib.Strings Require Import Byte.
From stdpp Require Import gmap strings.

Local Open Scope string_scope.
Local Open Scope Z_scope.

(* ===================================================================== *)
(** * Part I: definitions                                                 *)
(* ===================================================================== *)

(** ** float64 arithmetic

    Go's [float64] is IEEE 754 binary64.  The Standard Library's [SpecFloat]
    gives its operations as functions on [spec_float], with round to nearest,
    ties to even. *)

Module Float64.

Definition prec : Z := 53.
Definition emax : Z := 1024.

Abbreviation float64 := spec_float.

(** [float64(n)] for an integer [n]. *)
Definition of_int (n : Z) : float64 := binary_normalize prec emax n 0 false.

Definition div (x y : float64) : float64 := SFdiv prec emax x y.
Definition sub (x y : float64) : float64 := SFsub prec emax x y.
Definition abs (x : float64) : float64 := SFabs x.
Definition ltb (x y : float64) : bool := SFltb x y.

(** The float64 value of a constant expression [n/d]: Go evaluates the
    constant exactly and rounds once, which is what a correctly rounded
    division of the two (exactly representable) operands yields. *)
Definition const (n d : Z) : float64 := div (of_int n) (of_int d).


Definition is_inf (x : float64) : bool :=
  match x with S754_infinity _ => true | _ => false end.
Definition is_nan (x : float64) : bool :=
  match x with S754_nan => true | _ => false end.

End Float64.

(** ** Errors and results *)

Inductive error : Type :=
| ErrExec            (* cmd.Run returned an error *)
| ErrUnmarshal       (* json.Unmarshal returned an error *)
| ErrNoStreams.      (* errors.New("no streams found in ffprobe output") *)

Inductive result (A : Type) : Type :=
| Ok (a : A)
| Err (e : error)
| Panic.             (* run-time panic, e.g. slice bounds out of range *)
Arguments Ok {A} a.
Arguments Err {A} e.
Arguments Panic {A}.

(** ** getVideoAspectRatio *)

Record Stream := { Width : Z; Height : Z }.
Record FFProbeOutput := { Streams : list Stream }.

Definition ratio_of (s : Stream) : Float64.float64 :=
  Float64.div (Float64.of_int (Width s)) (Float64.of_int (Height s)).

(** [math.Abs(ratio-(n/d)) < 0.1] *)
Definition within_tolerance (ratio : Float64.float64) (n d : Z) : bool :=
  Float64.ltb (Float64.abs (Float64.sub ratio (Float64.const n d)))
              (Float64.const 1 10).

(** The part of [getVideoAspectRatio] after [json.Unmarshal] succeeded. *)
Definition classify (out : FFProbeOutput) : result string :=
  match Streams out with
  | [] => Err ErrNoStreams
  | s :: _ =>
      let ratio := ratio_of s in
      if within_tolerance ratio 16 9 then Ok "16:9"
      else if within_tolerance ratio 9 16 then Ok "9:16"
      else Ok "other"
  end.

(** [run] is what [cmd.Run] left on stdout ([None]: it returned an error),
    [unmarshal] is [json.Unmarshal] into [FFProbeOutput]. *)
Definition getVideoAspectRatio
    (run : option (list byte))
    (unmarshal : list byte -> option FFProbeOutput) : result string :=
  match run with
  | None => Err ErrExec
  | Some out =>
      match unmarshal out with
      | None => Err ErrUnmarshal
      | Some ffprobeOutput => classify ffprobeOutput
      end
  end.

(** The [switch aspectRatio] of the video handlers. *)
Definition aspectString (aspectRatio : string) : string :=
  if String.eqb aspectRatio "16:9" then "landscape"
  else if String.eqb aspectRatio "9:16" then "portrait"
  else "other".

(** The aspect class a video handler derives from a probe output:
    [getVideoAspectRatio] followed by the [switch]. *)
Definition aspect_of_probe (out : FFProbeOutput) : result string :=
  match classify out with
  | Ok aspectRatio => Ok (aspectString aspectRatio)
  | Err e => Err e
  | Panic => Panic
  end.

(** ** processVideoForFastStart *)

(** [s[:n]] on a Go string: panics unless [0 <= n <= len(s)]. *)
Definition slice_to (s : string) (n : Z) : result string :=
  if (0 <=? n) && (n <=? Z.of_nat (String.length s))
  then Ok (String.substring 0 (Z.to_nat n) s)
  else Panic.

(** [ffmpeg] is the outcome of [cmd.Run] for the given input and output
    paths: [true] when it returned no error. *)
Definition processVideoForFastStart
    (ffmpeg : string -> string -> bool) (filePath : string) : result string :=
  match slice_to filePath
          (Z.of_nat (String.length filePath) - Z.of_nat (String.length ".mp4")) with
  | Ok stem =>
      let outputFilePath := stem +:+ "-faststart.mp4" in
      if ffmpeg filePath outputFilePath then Ok outputFilePath else Err ErrExec
  | Err e => Err e
  | Panic => Panic
  end.

(** ** base64.RawURLEncoding.EncodeToString *)

Module Base64.

Definition encodeURL : string :=
  "ABCDEFGHIJKLMNOPQRSTUVWXYZabcdefghijklmnopqrstuvwxyz0123456789-_".

(** [enc.encode[i]] *)
Definition encode_char (i : Z) : ascii :=
  match String.get (Z.to_nat i) encodeURL with
  | Some c => c
  | None => "A"%char
  end.

Definition uint (b : byte) : Z := Z.of_N (Byte.to_N b).

Definition sextet (val : Z) (shift : Z) : ascii :=
  encode_char (Z.land (Z.shiftr val shift) 63).

Fixpoint EncodeToString (src : list byte) : string :=
  match src with
  | b0 :: b1 :: b2 :: rest =>
      let val := Z.lor (Z.lor (Z.shiftl (uint b0) 16) (Z.shiftl (uint b1) 8)) (uint b2) in
      String (sextet val 18) (String (sextet val 12)
        (String (sextet val 6) (String (sextet val 0) (EncodeToString rest))))
  | [b0; b1] =>
      let val := Z.lor (Z.shiftl (uint b0) 16) (Z.shiftl (uint b1) 8) in
      String (sextet val 18) (String (sextet val 12) (String (sextet val 6) EmptyString))
  | [b0] =>
      let val := Z.shiftl (uint b0) 16 in
      String (sextet val 18) (String (sextet val 12) EmptyString)
  | [] => EmptyString
  end.

End Base64.

(** ** mime.ExtensionsByType *)

Module Mime.

(** Go's [builtinTypesLower] (mime/type.go), each type without its
    parameters, as [setExtensionType] files it in the type-to-extensions
    registry. *)
Definition builtinTypesLower : list (string * string) :=
  [ (".avif", "image/avif");
    (".css",  "text/css");
    (".gif",  "image/gif");
    (".htm",  "text/html");
    (".html", "text/html");
    (".jpeg", "image/jpeg");
    (".jpg",  "image/jpeg");
    (".js",   "text/javascript");
    (".json", "application/json");
    (".mjs",  "text/javascript");
    (".pdf",  "application/pdf");
    (".png",  "image/png");
    (".svg",  "image/svg+xml");
    (".wasm", "application/wasm");
    (".webp", "image/webp");
    (".xml",  "text/xml") ].

(** The extensions registered for [justType]; [system] holds the pairs
    that the operating system's mime tables add to the built-in ones. *)
Definition registered (system : list (string * string)) (justType : string)
  : list string :=
  remove_dups ((filter (fun p => p.2 = justType) (builtinTypesLower ++ system)%list).*1).

Fixpoint insert_sorted (x : string) (l : list string) : list string :=
  match l with
  | [] => [x]
  | y :: l' => if String.leb x y then x :: l else y :: insert_sorted x l'
  end.

(** [slices.Sort] on strings: ascending, byte-wise lexicographic. *)
Definition Sort (l : list string) : list string :=
  fold_right insert_sorted [] l.

(** [None] is the error of [ParseMediaType]; a type without registered
    extensions yields the nil slice. *)
Definition ExtensionsByType
    (parse : string -> option string) (system : list (string * string))
    (typ : string) : option (list string) :=
  match parse typ with
  | None => None
  | Some justType => Some (Sort (registered system justType))
  end.

End Mime.

(** ** Data model *)

(** [uuid.UUID], a 128-bit identifier, as its numeric value. *)
Abbreviation UUID := N (only parsing).

(** Modelled from the spec: the video record of the metadata store, whose
    type declaration ([database.Video]) is not among the sources: identifier,
    owning user, optional thumbnail URL, optional video URL. *)
Record Video := {
  ID : UUID;
  UserID : UUID;
  ThumbnailURL : option string;
  VideoURL : option string
}.

Definition setThumbnailURL (v : Video) (url : string) : Video :=
  {| ID := ID v; UserID := UserID v;
     ThumbnailURL := Some url; VideoURL := VideoURL v |}.

Definition setVideoURL (v : Video) (url : string) : Video :=
  {| ID := ID v; UserID := UserID v;
     ThumbnailURL := ThumbnailURL v; VideoURL := Some url |}.

Record S3Object := { Body : list byte; ContentType : string }.

Record World := {
  db : gmap N Video;                       (* metadata store *)
  disk : gmap string (list byte);          (* local file system *)
  s3 : gmap (string * string) S3Object     (* object store: (bucket, key) *)
}.

Definition with_db (f : gmap N Video -> gmap N Video) (w : World) : World :=
  {| db := f (db w); disk := disk w; s3 := s3 w |}.
Definition with_disk (f : gmap string (list byte) -> gmap string (list byte))
    (w : World) : World :=
  {| db := db w; disk := f (disk w); s3 := s3 w |}.
Definition with_s3 (f : gmap (string * string) S3Object -> gmap (string * string) S3Object)
    (w : World) : World :=
  {| db := db w; disk := disk w; s3 := f (s3 w) |}.

Record apiConfig := {
  jwtSecret : string;
  assetsRoot : string;
  port : string;
  s3Bucket : string;
  s3Region : string;
  s3CfDistribution : string
}.

(** One file part of a multipart form. *)
Record FileHeader := {
  HeaderContentType : string;    (* header.Header.Get("Content-Type") *)
  Content : list byte
}.

Record Request := {
  PathVideoID : string;                              (* r.PathValue("videoID") *)
  Header : list (string * string);
  BodyLen : Z;
  Multipart : option (list (string * FileHeader))    (* None: not a parseable form *)
}.

Inductive Payload : Type :=
| ErrorBody (msg : string)
| VideoBody (v : Video)
| MapBody (kvs : list (string * string)).

Record Response := { Code : Z; Body_ : Payload }.

Definition StatusOK : Z := 200.
Definition StatusBadRequest : Z := 400.
Definition StatusUnauthorized : Z := 401.
Definition StatusNotFound : Z := 404.
Definition StatusInternalServerError : Z := 500.

(** ** Collaborators *)

(** Library functions the handlers call. *)
Record Lib := {
  uuid_Parse : string -> option UUID;
  uuid_String : UUID -> string;
  auth_GetBearerToken : list (string * string) -> option string;
  auth_ValidateJWT : string -> string -> option UUID;
  mime_ParseMediaType : string -> option string;
  mime_system : list (string * string);
  filepath_Join : string -> string -> string;
  os_TempDir : string;
  json_Unmarshal : list byte -> option FFProbeOutput
}.

(** Outcomes of the I/O of one request. *)
Record Oracle := {
  tempRandom : option string;        (* os.CreateTemp: the random part of the name *)
  copyTemp : option (list byte);     (* io.Copy to the temp file: Some written = failed *)
  ffprobe : list byte -> option (list byte);       (* stdout of ffprobe on a file *)
  seekOk : bool;
  ffmpeg : list byte -> option (list byte);        (* the rewritten file *)
  ffmpegPartial : option (list byte);  (* what a failing ffmpeg left at its output path *)
  openOk : bool;
  randRead : option (list byte);     (* crypto/rand.Read on the 32-byte slice *)
  putObjectOk : bool;
  createOk : bool;                   (* os.Create of the thumbnail file *)
  copyAsset : option (list byte);    (* io.Copy to the thumbnail file: Some written = failed *)
  updateVideoOk : bool
}.

(** ** Events and the handler monad *)

Inductive Event : Type :=
| EvGetBearerToken
| EvValidateJWT
| EvGetVideo (id : UUID)
| EvOwnerCheck
| EvParseMultipartForm
| EvFormFile (field : string)
| EvMediaType
| EvCreateTemp (path : string)
| EvCopy (path : string)
| EvProbe (path : string)
| EvSeek
| EvFastStart (src dst : string)
| EvRandRead
| EvOpen (path : string)
| EvPutObject (bucket key : string)
| EvCreate (path name : string)
| EvUpdateVideo (v : Video).

Record State := { world : World; trace : list Event }.

Inductive Flow (A : Type) : Type :=
| Next (a : A)
| Return_ (resp : Response)   (* a response was written and the handler returned *)
| Panicked.
Arguments Next {A} a.
Arguments Return_ {A} resp.
Arguments Panicked {A}.

Definition Handler (A : Type) : Type := State -> Flow A * State.

#[global] Instance Handler_ret : MRet Handler :=
  fun A a s => (Next a, s).

#[global] Instance Handler_bind : MBind Handler :=
  fun A B f m s =>
    match m s with
    | (Next a, s') => f a s'
    | (Return_ resp, s') => (Return_ resp, s')
    | (Panicked, s') => (Panicked, s')
    end.

Definition emit (e : Event) : Handler unit :=
  fun s => (Next tt, {| world := world s; trace := (trace s ++ [e])%list |}).

Definition modify (f : World -> World) : Handler unit :=
  fun s => (Next tt, {| world := f (world s); trace := trace s |}).

Definition get_world : Handler World :=
  fun s => (Next (world s), s).

(** Modelled from the spec: [respondWithError] and [respondWithJSON], which
    are not among the sources: every failure is surfaced as a JSON error
    body with its status, a success as the JSON of the payload. *)
Definition respondWithError {A} (code : Z) (msg : string) : Handler A :=
  fun s => (Return_ {| Code := code; Body_ := ErrorBody msg |}, s).

Definition respondWithJSON {A} (code : Z) (payload : Payload) : Handler A :=
  fun s => (Return_ {| Code := code; Body_ := payload |}, s).

Definition panic {A} : Handler A := fun s => (Panicked, s).

(** [x, err := f(); if err != nil { respondWithError(w, code, msg, err); return }] *)
Definition or_respond {A} (o : option A) (code : Z) (msg : string) : Handler A :=
  match o with
  | Some a => mret a
  | None => respondWithError code msg
  end.

Definition guard_ok (b : bool) (code : Z) (msg : string) : Handler unit :=
  if b then mret tt else respondWithError code msg.

(** [defer cleanup] followed by [body]: the clean-up runs when the handler
    returns, whichever way. *)
Definition defer {A} (cleanup : World -> World) (body : Handler A) : Handler A :=
  fun s =>
    let '(r, s') := body s in
    (r, {| world := cleanup (world s'); trace := trace s' |}).

(** ** Operations on the world *)

(** Modelled from the spec: [db.GetVideo] of the metadata store, which is
    not among the sources: [get(id) -> record | error]. *)
Definition GetVideo (id : UUID) : Handler (option Video) :=
  emit (EvGetVideo id);;
  w ← get_world;
  mret (db w !! id).

(** Modelled from the spec: [db.UpdateVideo] of the metadata store, which is
    not among the sources: [update(record) -> error]. *)
Definition UpdateVideo (io : Oracle) (v : Video) : Handler (option unit) :=
  emit (EvUpdateVideo v);;
  if updateVideoOk io
  then modify (with_db (insert (ID v) v));; mret (Some tt)
  else mret None.

Definition os_Remove (path : string) : World -> World :=
  with_disk (delete path).

Definition write_file (path : string) (data : list byte) : World -> World :=
  with_disk (insert path data).

(** [io.Copy(dst, src)]: [failed = Some written] is an error after [written]
    reached the destination. *)
Definition io_Copy (path : string) (src : list byte) (failed : option (list byte))
  : Handler (option unit) :=
  emit (EvCopy path);;
  match failed with
  | None => modify (write_file path src);; mret (Some tt)
  | Some written => modify (write_file path written);; mret None
  end.

(** [os.CreateTemp] with an empty directory and the pattern
    "prefix*suffix": the name is the temporary
    directory joined with prefix, a random string and suffix. *)
Definition joinPath (dir name : string) : string :=
  match String.get (String.length dir - 1) dir with
  | Some "/"%char => dir +:+ name
  | _ => dir +:+ "/" +:+ name
  end.

Definition os_CreateTemp (lib : Lib) (io : Oracle) (prefix suffix : string)
  : Handler (option string) :=
  match tempRandom io with
  | None => emit (EvCreateTemp EmptyString);; mret None
  | Some rnd =>
      let name := joinPath (os_TempDir lib) (prefix +:+ rnd +:+ suffix) in
      emit (EvCreateTemp name);;
      modify (write_file name []);;
      mret (Some name)
  end.

Definition file_at (path : string) : Handler (list byte) :=
  w ← get_world;
  mret (default [] (disk w !! path)).

(** [s3Client.PutObject]. *)
Definition PutObject (io : Oracle) (bucket key : string) (body : list byte)
    (contentType : string) : Handler (option unit) :=
  emit (EvPutObject bucket key);;
  if putObjectOk io
  then modify (with_s3 (insert (bucket, key)
                               {| Body := body; ContentType := contentType |}));;
       mret (Some tt)
  else mret None.

(** [r.FormFile(key)] on a parsed form: the first file filed under [key]. *)
Fixpoint form_file (form : list (string * FileHeader)) (key : string)
  : option FileHeader :=
  match form with
  | [] => None
  | (k, h) :: rest => if String.eqb k key then Some h else form_file rest key
  end.

(** [getVideoAspectRatio(path)] inside a handler. *)
Definition probe (lib : Lib) (io : Oracle) (path : string) : Handler (result string) :=
  emit (EvProbe path);;
  data ← file_at path;
  mret (getVideoAspectRatio (ffprobe io data) (json_Unmarshal lib)).

(** What a failing ffmpeg leaves behind: nothing, or a partial file at the
    output path it was given, the one [processVideoForFastStart] computes. *)
Definition ffmpeg_leftover (io : Oracle) (filePath : string) : World -> World :=
  match ffmpegPartial io, processVideoForFastStart (fun _ _ => true) filePath with
  | Some written, Ok outputFilePath => write_file outputFilePath written
  | _, _ => fun w => w
  end.

(** [processVideoForFastStart(path)] inside a handler: ffmpeg writes the
    output file when it succeeds, and may leave a partial one when it
    fails. *)
Definition fastStart (io : Oracle) (path : string) : Handler (result string) :=
  data ← file_at path;
  match processVideoForFastStart (fun _ _ => bool_decide (is_Some (ffmpeg io data))) path with
  | Ok out =>
      emit (EvFastStart path out);;
      modify (write_file out (default [] (ffmpeg io data)));;
      mret (Ok out)
  | Err e =>
      emit (EvFastStart path EmptyString);;
      modify (ffmpeg_leftover io path);;
      mret (Err e)
  | Panic => mret Panic
  end.

(** [const maxUploadSize = 1 << 30], the limit of [http.MaxBytesReader]. *)
Definition maxUploadSize : Z := Z.shiftl 1 30.

(** [auth.GetBearerToken] and [auth.ValidateJWT], as all three handlers
    call them. *)
Definition authenticate (lib : Lib) (cfg : apiConfig) (r : Request) : Handler UUID :=
  emit EvGetBearerToken;;
  token ← or_respond (auth_GetBearerToken lib (Header r))
            StatusUnauthorized "Couldn't find JWT";
  emit EvValidateJWT;;
  or_respond (auth_ValidateJWT lib token (jwtSecret cfg))
    StatusUnauthorized "Couldn't validate JWT".

Module FastStart.

(** [handlerUploadVideo] of handler_upload_video.go. *)
Definition handlerUploadVideo (lib : Lib) (cfg : apiConfig) (io : Oracle)
    (r : Request) : Handler unit :=
  videoID ← or_respond (uuid_Parse lib (PathVideoID r))
              StatusBadRequest "Invalid ID";
  userID ← authenticate lib cfg r;
  got ← GetVideo videoID;
  video ← or_respond got StatusInternalServerError "Couldn't get video metadata";
  emit EvOwnerCheck;;
  guard_ok (bool_decide (UserID video = userID)) StatusUnauthorized
    "You don't have permission to upload a video for this video ID";;
  emit (EvFormFile "video");;
  header ← or_respond
             (if BodyLen r <=? maxUploadSize
              then form ← Multipart r; form_file form "video" else None)
             StatusBadRequest "Couldn't get video file from form data";
  emit EvMediaType;;
  mediaType ← or_respond (mime_ParseMediaType lib (HeaderContentType header))
                StatusBadRequest "Couldn't parse media type";
  guard_ok (String.eqb mediaType "video/mp4") StatusBadRequest
    "Unsupported media type";;
  created ← os_CreateTemp lib io "tubely-upload-" ".mp4";
  tempFile ← or_respond created StatusInternalServerError
               "Couldn't create temp file";
  defer (os_Remove tempFile) (
    copied ← io_Copy tempFile (Content header) (copyTemp io);
    or_respond copied StatusInternalServerError
      "Couldn't copy uploaded file to temp file";;
    probed ← probe lib io tempFile;
    aspectRatio ← match probed with
                  | Ok a => mret a
                  | Err _ => respondWithError StatusInternalServerError
                               "Couldn't get video aspect ratio"
                  | Panic => panic
                  end;
    let aspect := aspectString aspectRatio in
    emit EvSeek;;
    guard_ok (seekOk io) StatusInternalServerError "Couldn't reset file pointer";;
    processed ← fastStart io tempFile;
    processedFilePath ← match processed with
                        | Ok p => mret p
                        | Err _ => respondWithError StatusInternalServerError
                                     "Couldn't process video for fast start"
                        | Panic => panic
                        end;
    defer (os_Remove processedFilePath) (
      let s3Key := aspect +:+ "/" +:+ uuid_String lib videoID +:+ ".mp4" in
      let videoURL := "https://" +:+ s3CfDistribution cfg +:+ "/" +:+ s3Key in
      emit (EvOpen processedFilePath);;
      guard_ok (openOk io) StatusInternalServerError
        "Couldn't open processed video file";;
      body ← file_at processedFilePath;
      put ← PutObject io (s3Bucket cfg) s3Key body mediaType;
      or_respond put StatusInternalServerError "Couldn't upload video to S3";;
      let video := setVideoURL video videoURL in
      updated ← UpdateVideo io video;
      or_respond updated StatusInternalServerError
        "Couldn't update video metadata with video URL";;
      respondWithJSON StatusOK (VideoBody video))).

End FastStart.

Module RandomKey.

(** [handlerUploadVideo] of the version with random object keys. *)
Definition handlerUploadVideo (lib : Lib) (cfg : apiConfig) (io : Oracle)
    (r : Request) : Handler unit :=
  videoID ← or_respond (uuid_Parse lib (PathVideoID r))
              StatusBadRequest "Invalid ID";
  userID ← authenticate lib cfg r;
  got ← GetVideo videoID;
  video ← or_respond got StatusInternalServerError "Couldn't get video metadata";
  emit EvOwnerCheck;;
  guard_ok (bool_decide (UserID video = userID)) StatusUnauthorized
    "You don't have permission to upload a video for this video ID";;
  emit (EvFormFile "video");;
  header ← or_respond
             (if BodyLen r <=? maxUploadSize
              then form ← Multipart r; form_file form "video" else None)
             StatusBadRequest "Couldn't get video file from form data";
  emit EvMediaType;;
  mediaType ← or_respond (mime_ParseMediaType lib (HeaderContentType header))
                StatusBadRequest "Couldn't parse media type";
  guard_ok (String.eqb mediaType "video/mp4") StatusBadRequest
    "Unsupported media type";;
  created ← os_CreateTemp lib io "tubely-upload-" ".mp4";
  tempFile ← or_respond created StatusInternalServerError
               "Couldn't create temp file";
  defer (os_Remove tempFile) (
    copied ← io_Copy tempFile (Content header) (copyTemp io);
    or_respond copied StatusInternalServerError
      "Couldn't copy uploaded file to temp file";;
    probed ← probe lib io tempFile;
    aspectRatio ← match probed with
                  | Ok a => mret a
                  | Err _ => respondWithError StatusInternalServerError
                               "Couldn't get video aspect ratio"
                  | Panic => panic
                  end;
    let aspect := aspectString aspectRatio in
    emit EvSeek;;
    guard_ok (seekOk io) StatusInternalServerError "Couldn't reset file pointer";;
    emit EvRandRead;;
    key ← or_respond (randRead io) StatusInternalServerError
            "Couldn't generate random bytes for thumbnail filename";
    let randomName := Base64.EncodeToString key in
    let s3Key := aspect +:+ "/videos/" +:+ randomName +:+ ".mp4" in
    body ← file_at tempFile;
    (* _, err = PutObject(...): err is overwritten below, never read *)
    _ ← PutObject io (s3Bucket cfg) s3Key body mediaType;
    let videoURL := "https://" +:+ s3Bucket cfg +:+ ".s3." +:+ s3Region cfg
                      +:+ ".amazonaws.com/" +:+ s3Key in
    let video := setVideoURL video videoURL in
    updated ← UpdateVideo io video;
    or_respond updated StatusInternalServerError
      "Couldn't update video metadata with video URL";;
    respondWithJSON StatusOK (MapBody [("videoURL", videoURL)])).

End RandomKey.

(** [handlerUploadThumbnail]. *)
Definition handlerUploadThumbnail (lib : Lib) (cfg : apiConfig) (io : Oracle)
    (r : Request) : Handler unit :=
  videoID ← or_respond (uuid_Parse lib (PathVideoID r))
              StatusBadRequest "Invalid ID";
  userID ← authenticate lib cfg r;
  emit EvParseMultipartForm;;
  form ← or_respond (Multipart r) StatusBadRequest "Couldn't parse multipart form";
  emit (EvFormFile "thumbnail");;
  header ← or_respond (form_file form "thumbnail")
             StatusBadRequest "Couldn't get thumbnail file";
  let mediaType := HeaderContentType header in
  emit EvMediaType;;
  ext ← match Mime.ExtensionsByType (mime_ParseMediaType lib) (mime_system lib)
                mediaType with
        | Some (ext :: _) => mret ext
        | _ => respondWithError StatusBadRequest "Unsupported media type"
        end;
  guard_ok (negb (negb (String.eqb ext ".jpg") && negb (String.eqb ext ".png")))
    StatusBadRequest "Unsupported file type";;
  got ← GetVideo videoID;
  video ← or_respond got StatusNotFound "Couldn't get video metadata";
  emit EvOwnerCheck;;
  guard_ok (bool_decide (UserID video = userID)) StatusUnauthorized
    "You don't have permission to upload a thumbnail for this video";;
  emit EvRandRead;;
  key ← or_respond (randRead io) StatusInternalServerError
          "Couldn't generate random bytes for thumbnail filename";
  let randomName := Base64.EncodeToString key in
  let assetPath := filepath_Join lib (assetsRoot cfg) (randomName +:+ ext) in
  emit (EvCreate assetPath (randomName +:+ ext));;
  guard_ok (createOk io) StatusInternalServerError "Couldn't create thumbnail file";;
  modify (write_file assetPath []);;
  copied ← io_Copy assetPath (Content header) (copyAsset io);
  or_respond copied StatusInternalServerError "Couldn't write thumbnail file";;
  let thumbnailURL := "http://localhost:" +:+ port cfg +:+ "/assets/"
                        +:+ randomName +:+ ext in
  let video := setThumbnailURL video thumbnailURL in
  updated ← UpdateVideo io video;
  or_respond updated StatusInternalServerError
    "Couldn't update video metadata with thumbnail URL";;
  respondWithJSON StatusOK (VideoBody video).

(** ** Running a handler *)

Record Run := {
  response : option Response;   (* None: the handler panicked *)
  final : World;
  events : list Event
}.

Definition serve (h : Handler unit) (w : World) : Run :=
  match h {| world := w; trace := [] |} with
  | (Return_ resp, s) =>
      {| response := Some resp; final := world s; events := trace s |}
  | (Next _, s) =>
      (* net/http answers 200 with an empty body when nothing was written *)
      {| response := Some {| Code := StatusOK; Body_ := MapBody [] |};
         final := world s; events := trace s |}
  | (Panicked, s) =>
      {| response := None; final := world s; events := trace s |}
  end.

Definition status (run : Run) : option Z := Code <$> response run.

(** [head_le l x]: [l] is not empty and its first element is at most [x]. *)
Definition head_le (l : list string) (x : string) : Prop :=
  match l with
  | [] => False
  | h :: _ => String.leb h x = true
  end.

(** Records are filed under their own identifier (the identifier is the
    primary key of the metadata store). *)
Definition db_wf (d : gmap N Video) : Prop :=
  forall (id : UUID) (v : Video), d !! id = Some v -> ID v = id.

(** ** The steps of an upload

    The coarse steps of a request, and the step to which an event of the
    trace belongs.  Buffering to the temporary file, probing, seeking and
    the rewrite are not among them. *)

Inductive Step : Type :=
| Authenticate | Fetch | Ownership | Decode | Validate | Persist | Update.

Definition Step_eqb (a b : Step) : bool :=
  match a, b with
  | Authenticate, Authenticate | Fetch, Fetch | Ownership, Ownership
  | Decode, Decode | Validate, Validate | Persist, Persist | Update, Update => true
  | _, _ => false
  end.

Definition step_of (e : Event) : option Step :=
  match e with
  | EvGetBearerToken | EvValidateJWT => Some Authenticate
  | EvGetVideo _ => Some Fetch
  | EvOwnerCheck => Some Ownership
  | EvParseMultipartForm | EvFormFile _ => Some Decode
  | EvMediaType => Some Validate
  | EvPutObject _ _ | EvCreate _ _ => Some Persist
  | EvUpdateVideo _ => Some Update
  | _ => None
  end.

Definition steps (tr : list Event) : list Step := omap step_of tr.

(** Adjacent repetitions of a step count once. *)
Fixpoint compress (l : list Step) : list Step :=
  match l with
  | [] => []
  | a :: t =>
      match t with
      | b :: _ => if Step_eqb a b then compress t else a :: compress t
      | [] => [a]
      end
  end.

Fixpoint is_prefix (l order : list Step) : bool :=
  match l, order with
  | [], _ => true
  | a :: l', b :: order' => Step_eqb a b && is_prefix l' order'
  | _ :: _, [] => false
  end.

(** The steps of a trace occur in the given order, none skipped. *)
Definition follows (order : list Step) (tr : list Event) : bool :=
  is_prefix (compress (steps tr)) order.

Definition videoOrder : list Step :=
  [Authenticate; Fetch; Ownership; Decode; Validate; Persist; Update].

Definition thumbnailOrder : list Step :=
  [Authenticate; Decode; Validate; Fetch; Ownership; Persist; Update].

(** The keys handed to [PutObject], and the names of the asset files
    created, in the order of the trace. *)
Definition put_keys (tr : list Event) : list string :=
  omap (fun e => match e with EvPutObject _ key => Some key | _ => None end) tr.

Definition asset_names (tr : list Event) : list string :=
  omap (fun e => match e with EvCreate _ name => Some name | _ => None end) tr.

(** The checks of [handlerUploadThumbnail] between authentication and the
    fetch of the record: the form parses, it has a thumbnail file, and the
    first extension listed for its content type is ".jpg" or ".png". *)
Definition thumbnail_form_ok (lib : Lib) (r : Request) : bool :=
  match Multipart r with
  | Some form =>
      match form_file form "thumbnail" with
      | Some header =>
          match Mime.ExtensionsByType (mime_ParseMediaType lib) (mime_system lib)
                  (HeaderContentType header) with
          | Some (ext :: _) => String.eqb ext ".jpg" || String.eqb ext ".png"
          | _ => false
          end
      | None => false
      end
  | None => false
  end.

(** ** A concrete deployment, used to instantiate the theorems *)

Module Example.

Definition videoID : UUID := 1%N.
Definition alice : UUID := 10%N.
Definition bob : UUID := 20%N.
Definition videoIDString : string := "00000000-0000-0000-0000-000000000001".

Definition lib : Lib := {|
  uuid_Parse := fun s => if String.eqb s videoIDString then Some videoID else None;
  uuid_String := fun _ => videoIDString;
  auth_GetBearerToken := fun h =>
    match h with
    | [("Authorization", v)] => Some (String.substring 7 (String.length v - 7) v)
    | _ => None
    end;
  auth_ValidateJWT := fun token _ =>
    if String.eqb token "alice" then Some alice
    else if String.eqb token "bob" then Some bob else None;
  mime_ParseMediaType := fun s => if String.eqb s EmptyString then None else Some s;
  mime_system := [];
  filepath_Join := fun dir name => dir +:+ "/" +:+ name;
  os_TempDir := "/tmp";
  json_Unmarshal := fun _ =>
    Some {| Streams := [{| Width := 1920; Height := 1080 |}] |}
|}.

Definition cfg : apiConfig := {|
  jwtSecret := "secret";
  assetsRoot := "assets";
  port := "8091";
  s3Bucket := "tubely";
  s3Region := "us-east-2";
  s3CfDistribution := "d1.cloudfront.net"
|}.

Definition zeros : list byte := repeat x00 32.
Definition ones : list byte := repeat x01 32.

(** Every operation succeeds; [rnd] and [key] are the random draws. *)
Definition io (rnd : string) (key : list byte) : Oracle := {|
  tempRandom := Some rnd;
  copyTemp := None;
  ffprobe := fun _ => Some [];
  seekOk := true;
  ffmpeg := fun data => Some data;
  ffmpegPartial := None;
  openOk := true;
  randRead := Some key;
  putObjectOk := true;
  createOk := true;
  copyAsset := None;
  updateVideoOk := true
|}.

(** The same, except that [PutObject] fails. *)
Definition io_put_fails : Oracle := {|
  tempRandom := Some "1";
  copyTemp := None;
  ffprobe := fun _ => Some [];
  seekOk := true;
  ffmpeg := fun data => Some data;
  ffmpegPartial := None;
  openOk := true;
  randRead := Some zeros;
  putObjectOk := false;
  createOk := true;
  copyAsset := None;
  updateVideoOk := true
|}.

Definition upload (user field contentType : string) : Request := {|
  PathVideoID := videoIDString;
  Header := [("Authorization", "Bearer " +:+ user)];
  BodyLen := 3;
  Multipart := Some [(field, {| HeaderContentType := contentType;
                                Content := [x01; x02; x03] |})]
|}.

Definition record : Video := {|
  ID := videoID; UserID := alice; ThumbnailURL := None; VideoURL := None
|}.

Definition world : World := {|
  db := {[ videoID := record ]};
  disk := ∅;
  s3 := ∅
|}.

Definition empty_world : World := {| db := ∅; disk := ∅; s3 := ∅ |}.

End Example.

(** ** Predicates of the further properties *)

(** The characters of the URL-safe base64 alphabet: letters, digits, "-"
    and "_". *)
Definition url_safe (c : ascii) : bool :=
  let n := nat_of_ascii c in
  ((65 <=? n) && (n <=? 90) || (97 <=? n) && (n <=? 122)
   || (48 <=? n) && (n <=? 57) || (n =? 45) || (n =? 95))%nat.

(** Between the stores [d] and [d'] no record appears or disappears, and
    every record keeps its identifier, its owner and [field]. *)
Definition records_keep (field : Video -> option string) (d d' : gmap N Video) : Prop :=
  forall id : UUID,
    match d !! id, d' !! id with
    | Some v, Some v' => ID v' = ID v /\ UserID v' = UserID v /\ field v' = field v
    | None, None => True
    | _, _ => False
    end.

(** Deployments in which one operation fails. *)
Module Failing.

(** ffprobe returns an error. *)
Definition io_probe : Oracle := {|
  tempRandom := Some "1";
  copyTemp := None;
  ffprobe := fun _ => None;
  seekOk := true;
  ffmpeg := fun data => Some data;
  ffmpegPartial := None;
  openOk := true;
  randRead := Some Example.zeros;
  putObjectOk := true;
  createOk := true;
  copyAsset := None;
  updateVideoOk := true
|}.

(** ffmpeg returns an error and leaves one byte at its output path. *)
Definition io_ffmpeg_partial : Oracle := {|
  tempRandom := Some "1";
  copyTemp := None;
  ffprobe := fun _ => Some [];
  seekOk := true;
  ffmpeg := fun _ => None;
  ffmpegPartial := Some [x01];
  openOk := true;
  randRead := Some Example.zeros;
  putObjectOk := true;
  createOk := true;
  copyAsset := None;
  updateVideoOk := true
|}.

(** ffmpeg returns an error and leaves nothing. *)
Definition io_ffmpeg : Oracle := {|
  tempRandom := Some "1";
  copyTemp := None;
  ffprobe := fun _ => Some [];
  seekOk := true;
  ffmpeg := fun _ => None;
  ffmpegPartial := None;
  openOk := true;
  randRead := Some Example.zeros;
  putObjectOk := true;
  createOk := true;
  copyAsset := None;
  updateVideoOk := true
|}.

(** [db.UpdateVideo] returns an error. *)
Definition io_update : Oracle := {|
  tempRandom := Some "1";
  copyTemp := None;
  ffprobe := fun _ => Some [];
  seekOk := true;
  ffmpeg := fun data => Some data;
  ffmpegPartial := None;
  openOk := true;
  randRead := Some Example.zeros;
  putObjectOk := true;
  createOk := true;
  copyAsset := None;
  updateVideoOk := false
|}.

(** [rand.Read] returns an error. *)
Definition io_rand : Oracle := {|
  tempRandom := Some "1";
  copyTemp := None;
  ffprobe := fun _ => Some [];
  seekOk := true;
  ffmpeg := fun data => Some data;
  ffmpegPartial := None;
  openOk := true;
  randRead := None;
  putObjectOk := true;
  createOk := true;
  copyAsset := None;
  updateVideoOk := true
|}.

(** [io.Copy] to the asset file returns an error after one byte. *)
Definition io_asset : Oracle := {|
  tempRandom := Some "1";
  copyTemp := None;
  ffprobe := fun _ => Some [];
  seekOk := true;
  ffmpeg := fun data => Some data;
  ffmpegPartial := None;
  openOk := true;
  randRead := Some Example.zeros;
  putObjectOk := true;
  createOk := true;
  copyAsset := Some [x01];
  updateVideoOk := true
|}.

End Failing.

(* ===================================================================== *)
(** * Part II: lemmas and theorems                                        *)
(* ===================================================================== *)

(** ** Rounding of binary64: a value of magnitude at least 1/8 never rounds
    below the tolerance 0.1 *)













Lemma const_16_9 : Float64.const 16 9 = S754_finite false 8006399337547548 (-52).
Proof. vm_compute. reflexivity. Qed.
Lemma const_9_16 : Float64.const 9 16 = S754_finite false 5066549580791808 (-53).
Proof. vm_compute. reflexivity. Qed.
Lemma const_1_10 : Float64.const 1 10 = S754_finite false 7205759403792794 (-56).
Proof. vm_compute. reflexivity. Qed.





(** ** Aspect classification *)



(** Where the exact quotient lies exactly 0.1 away from 16/9, the rounding
    of float64 decides: 151/90 is classified landscape, 169/90 other. *)
Lemma aspect_at_exact_boundary :
  aspect_of_probe {| Streams := [{| Width := 151; Height := 90 |}] |} = Ok "landscape"
  /\ aspect_of_probe {| Streams := [{| Width := 169; Height := 90 |}] |} = Ok "other".
Proof. split; vm_compute; reflexivity. Qed.

Lemma div_by_zero_inf_or_nan (x : Float64.float64) :
  Float64.is_inf (Float64.div x (Float64.of_int 0)) = true
  \/ Float64.is_nan (Float64.div x (Float64.of_int 0)) = true.
Proof. destruct x as [s | s | | s m e]; cbn; auto. Qed.

Lemma inf_or_nan_not_within (r : Float64.float64) (n d : Z) :
  Float64.is_inf r = true \/ Float64.is_nan r = true ->
  (exists s m e, Float64.const n d = S754_finite s m e) ->
  within_tolerance r n d = false.
Proof.
  intros Hr (s & m & e & Hc). unfold within_tolerance. rewrite Hc, const_1_10.
  destruct r as [? | sr | | ? ? ?]; cbn in Hr; try (destruct Hr; discriminate).
  - destruct sr, s; reflexivity.
  - reflexivity.
Qed.

(** C9. When the first stream of the probe output has height 0, the
    quotient is an infinity or NaN, neither tolerance comparison holds, and
    [getVideoAspectRatio] returns "other" without an error. *)
Theorem zero_height_is_other :
  forall (w : Z) (rest : list Stream) (stdout : list byte)
         (unmarshal : list byte -> option FFProbeOutput),
    let s := {| Width := w; Height := 0 |} in
    (Float64.is_inf (ratio_of s) = true \/ Float64.is_nan (ratio_of s) = true)
    /\ within_tolerance (ratio_of s) 16 9 = false
    /\ within_tolerance (ratio_of s) 9 16 = false
    /\ (unmarshal stdout = Some {| Streams := s :: rest |} ->
        getVideoAspectRatio (Some stdout) unmarshal = Ok "other").
Proof.
  intros w rest stdout unmarshal s.
  assert (Hr : Float64.is_inf (ratio_of s) = true \/ Float64.is_nan (ratio_of s) = true)
    by apply div_by_zero_inf_or_nan.
  assert (H1 : within_tolerance (ratio_of s) 16 9 = false).
  { apply inf_or_nan_not_within; [assumption|]. rewrite const_16_9. eauto. }
  assert (H2 : within_tolerance (ratio_of s) 9 16 = false).
  { apply inf_or_nan_not_within; [assumption|]. rewrite const_9_16. eauto. }
  repeat split; try assumption.
  intros Hu. unfold getVideoAspectRatio, classify. rewrite Hu. cbn [Streams].
  fold s. rewrite H1, H2. reflexivity.
Qed.

(** ** The output path of the fast-start rewrite *)

(** C10. For a path of at least four bytes, [processVideoForFastStart]
    works on the path without its last four bytes followed by
    "-faststart.mp4", whatever those four bytes are: that is the output path
    handed to ffmpeg and returned when ffmpeg succeeds.  For a shorter path
    the slice expression panics. *)
Theorem fast_start_output_path :
  forall (ffmpeg : string -> string -> bool) (filePath : string),
    ((4 <= String.length filePath)%nat ->
     let outputFilePath :=
       String.substring 0 (String.length filePath - 4) filePath +:+ "-faststart.mp4" in
     processVideoForFastStart ffmpeg filePath =
       if ffmpeg filePath outputFilePath then Ok outputFilePath else Err ErrExec)
    /\ ((String.length filePath < 4)%nat ->
        processVideoForFastStart ffmpeg filePath = Panic).
Proof.
  intros ffmpeg filePath. unfold processVideoForFastStart, slice_to.
  change (String.length ".mp4") with 4%nat.
  split; intros H.
  - destruct (Z.leb_spec 0 (Z.of_nat (String.length filePath) - Z.of_nat 4)); [|lia].
    destruct (Z.leb_spec (Z.of_nat (String.length filePath) - Z.of_nat 4)
                (Z.of_nat (String.length filePath))); [|lia].
    cbn [andb].
    replace (Z.to_nat (Z.of_nat (String.length filePath) - Z.of_nat 4))
      with (String.length filePath - 4)%nat by lia.
    reflexivity.
  - destruct (Z.leb_spec 0 (Z.of_nat (String.length filePath) - Z.of_nat 4)); [lia|].
    reflexivity.
Qed.

Lemma fast_start_output_path_witness :
  processVideoForFastStart (fun _ _ => true) "/tmp/clip.mov" = Ok "/tmp/clip-faststart.mp4"
  /\ processVideoForFastStart (fun _ _ => true) "abc" = @Panic string.
Proof.
  split.
  - apply (proj1 (fast_start_output_path (fun _ _ => true) "/tmp/clip.mov")).
    simpl. lia.
  - apply (proj2 (fast_start_output_path (fun _ _ => true) "abc")).
    simpl. lia.
Defined.

(** ** base64 is injective *)
















(** ** The first extension of a sorted extension list *)

Lemma string_leb_refl (s : string) : String.leb s s = true.
Proof. destruct (String.leb_total s s); assumption. Qed.

Lemma string_leb_trans (s1 s2 s3 : string) :
  String.leb s1 s2 = true -> String.leb s2 s3 = true -> String.leb s1 s3 = true.
Proof.
  unfold String.leb. revert s2 s3.
  induction s1 as [|c1 t1 IH]; intros [|c2 t2] [|c3 t3]; cbn [String.compare];
    try reflexivity; try discriminate.
  unfold Ascii.compare.
  destruct (N.compare_spec (N_of_ascii c1) (N_of_ascii c2)) as [E12|L12|G12];
    destruct (N.compare_spec (N_of_ascii c2) (N_of_ascii c3)) as [E23|L23|G23];
    try discriminate; intros H12 H23.
  - rewrite E12, E23, N.compare_refl. exact (IH t2 t3 H12 H23).
  - rewrite E12. apply N.compare_lt_iff in L23. rewrite L23. reflexivity.
  - rewrite <- E23. apply N.compare_lt_iff in L12. rewrite L12. reflexivity.
  - assert (L13 : (N_of_ascii c1 < N_of_ascii c3)%N) by lia.
    apply N.compare_lt_iff in L13. rewrite L13. reflexivity.
Qed.

Lemma insert_sorted_head_self (a : string) (l : list string) :
  head_le (Mime.insert_sorted a l) a.
Proof.
  destruct l as [|y l]; cbn; [apply string_leb_refl|].
  destruct (String.leb a y) eqn:E; cbn; [apply string_leb_refl|].
  destruct (String.leb_total a y) as [H|H]; congruence.
Qed.

Lemma insert_sorted_head_keeps (a x : string) (l : list string) :
  head_le l x -> head_le (Mime.insert_sorted a l) x.
Proof.
  destruct l as [|y l]; cbn; [tauto|]. intros H.
  destruct (String.leb a y) eqn:E; cbn; [|assumption].
  exact (string_leb_trans _ _ _ E H).
Qed.

Lemma Sort_head_le (l : list string) (x : string) :
  x ∈ l -> head_le (Mime.Sort l) x.
Proof.
  induction l as [|a l IH]; intros Hin; [inversion Hin|].
  cbn [Mime.Sort fold_right]. apply elem_of_cons in Hin as [-> | Hin].
  - apply insert_sorted_head_self.
  - apply insert_sorted_head_keeps, IH, Hin.
Qed.

Lemma builtin_registered (system : list (string * string)) (ext ty : string) :
  (ext, ty) ∈ Mime.builtinTypesLower -> ext ∈ Mime.registered system ty.
Proof.
  intros Hin. unfold Mime.registered.
  apply elem_of_remove_dups, list_elem_of_fmap.
  exists (ext, ty). split; [reflexivity|].
  apply list_elem_of_filter. split; [reflexivity|].
  apply elem_of_app. left. exact Hin.
Qed.

(** Whatever the system tables add, the first extension that
    [ExtensionsByType] lists for image/jpeg sorts at or before ".jpeg",
    hence is neither ".jpg" nor ".png". *)
Lemma jpeg_first_extension (system : list (string * string)) :
  exists ext rest,
    Mime.Sort (Mime.registered system "image/jpeg") = ext :: rest
    /\ String.eqb ext ".jpg" = false /\ String.eqb ext ".png" = false.
Proof.
  assert (Hin : ".jpeg" ∈ Mime.registered system "image/jpeg").
  { apply builtin_registered. unfold Mime.builtinTypesLower.
    do 5 apply list_elem_of_further. apply list_elem_of_here. }
  apply Sort_head_le in Hin.
  destruct (Mime.Sort (Mime.registered system "image/jpeg")) as [|ext rest];
    [contradiction|].
  exists ext, rest. split; [reflexivity|]. cbn [head_le] in Hin.
  split; apply String.eqb_neq; intros ->; vm_compute in Hin; discriminate.
Qed.

(** ** Strings *)

Lemma append_cons (c : ascii) (a b : string) : String c a +:+ b = String c (a +:+ b).
Proof. reflexivity. Qed.

Lemma append_nil (b : string) : EmptyString +:+ b = b.
Proof. reflexivity. Qed.

Ltac unfold_append := repeat first [rewrite append_cons | rewrite append_nil].

Lemma append_assoc (x y z : string) : (x +:+ y) +:+ z = x +:+ y +:+ z.
Proof.
  induction x as [|c x IH]; unfold_append; [reflexivity | rewrite IH; reflexivity].
Qed.

Lemma string_length_append (a b : string) :
  String.length (a +:+ b) = (String.length a + String.length b)%nat.
Proof.
  induction a as [|c a IH]; unfold_append; cbn [String.length];
    [reflexivity | rewrite IH; reflexivity].
Qed.

Lemma append_cancel_l (p a b : string) : p +:+ a = p +:+ b -> a = b.
Proof.
  induction p as [|c p IH]; unfold_append; intros H;
    [assumption | injection H as H; auto].
Qed.


Lemma aspectString_range (a : string) :
  aspectString a = "landscape" \/ aspectString a = "portrait" \/ aspectString a = "other".
Proof.
  unfold aspectString.
  destruct (String.eqb a "16:9"); [auto|]. destruct (String.eqb a "9:16"); auto.
Qed.


(** The temporary file of the video handlers is named "...*.mp4". *)
Lemma substring_prefix (a b : string) :
  String.substring 0 (String.length a) (a +:+ b) = a.
Proof.
  induction a as [|c a IH]; unfold_append; cbn [String.length String.substring].
  - destruct b; reflexivity.
  - rewrite IH. reflexivity.
Qed.

Lemma joinPath_append (dir a b : string) :
  joinPath dir (a +:+ b) = joinPath dir a +:+ b.
Proof.
  unfold joinPath.
  destruct (String.get (String.length dir - 1) dir) as [c|];
    [destruct (Ascii.eqb_spec c "/"%char) as [-> | Hne]|].
  - rewrite append_assoc. reflexivity.
  - destruct c as [[] [] [] [] [] [] [] []]; try (exfalso; apply Hne; reflexivity);
      rewrite !append_assoc; reflexivity.
  - rewrite !append_assoc. reflexivity.
Qed.

Lemma fast_start_of_mp4 (ffmpeg : string -> string -> bool) (stem : string) :
  processVideoForFastStart ffmpeg (stem +:+ ".mp4") =
    if ffmpeg (stem +:+ ".mp4") (stem +:+ "-faststart.mp4")
    then Ok (stem +:+ "-faststart.mp4") else Err ErrExec.
Proof.
  unfold processVideoForFastStart, slice_to.
  rewrite string_length_append. change (String.length ".mp4") with 4%nat.
  destruct (Z.leb_spec 0 (Z.of_nat (String.length stem + 4) - Z.of_nat 4)); [|lia].
  destruct (Z.leb_spec (Z.of_nat (String.length stem + 4) - Z.of_nat 4)
              (Z.of_nat (String.length stem + 4))); [|lia].
  cbn [andb].
  replace (Z.to_nat (Z.of_nat (String.length stem + 4) - Z.of_nat 4))
    with (String.length stem) by lia.
  rewrite substring_prefix. reflexivity.
Qed.

Lemma temp_file_name (dir prefix rnd : string) :
  joinPath dir (prefix +:+ rnd +:+ ".mp4") = joinPath dir (prefix +:+ rnd) +:+ ".mp4".
Proof. rewrite <- joinPath_append, append_assoc. reflexivity. Qed.

(** ** Running the handlers symbolically *)

#[local] Arguments String.eqb : simpl never.
#[local] Arguments Z.leb : simpl never.
#[local] Arguments aspectString : simpl never.
#[local] Arguments getVideoAspectRatio : simpl never.
#[local] Arguments processVideoForFastStart : simpl never.
#[local] Arguments Base64.EncodeToString : simpl never.
#[local] Arguments Mime.ExtensionsByType : simpl never.
#[local] Arguments joinPath : simpl never.
#[local] Arguments maxUploadSize : simpl never.

Ltac unfold_handlers :=
  unfold status, serve, FastStart.handlerUploadVideo, RandomKey.handlerUploadVideo,
    handlerUploadThumbnail, authenticate, GetVideo, UpdateVideo, PutObject,
    os_CreateTemp, io_Copy, probe, fastStart, ffmpeg_leftover, file_at, defer,
    or_respond, guard_ok,
    respondWithError, respondWithJSON, panic, emit, modify, get_world;
  unfold mbind, mret, Handler_bind, Handler_ret, option_bind.

(** Use the equations in the context to take the next branch. *)
Ltac take_branch :=
  match goal with
  | H : ?x = _ |- context [?x] => rewrite H
  end.

Ltac run_handler := unfold_handlers; repeat (cbn; try take_branch); cbn.

Section Authenticated.
Variables (lib : Lib) (cfg : apiConfig) (io : Oracle) (r : Request) (w : World).
Variables (videoID userID : UUID) (token : string).
Hypothesis Hid : uuid_Parse lib (PathVideoID r) = Some videoID.
Hypothesis Htoken : auth_GetBearerToken lib (Header r) = Some token.
Hypothesis Hjwt : auth_ValidateJWT lib token (jwtSecret cfg) = Some userID.

(** C4. With a well-formed identifier and a valid token, when the fetch
    of the record fails both versions of the video handler answer 500
    (Internal Server Error), not 404. *)
Theorem video_fetch_failure_is_500 :
  db w !! videoID = None ->
  status (serve (FastStart.handlerUploadVideo lib cfg io r) w)
    = Some StatusInternalServerError
  /\ status (serve (RandomKey.handlerUploadVideo lib cfg io r) w)
    = Some StatusInternalServerError.
Proof. intros Hdb. split; run_handler; reflexivity. Qed.

(** X15. The thumbnail handler answers 404 for the same failure, once the form
    and the content type have passed its checks. *)
Lemma thumbnail_fetch_failure_is_404 :
  thumbnail_form_ok lib r = true ->
  db w !! videoID = None ->
  status (serve (handlerUploadThumbnail lib cfg io r) w) = Some StatusNotFound
  /\ final (serve (handlerUploadThumbnail lib cfg io r) w) = w.
Proof.
  unfold thumbnail_form_ok. intros Hok Hdb.
  destruct (Multipart r) as [form|] eqn:Hform; [|discriminate].
  destruct (form_file form "thumbnail") as [header|] eqn:Hfile; [|discriminate].
  destruct (Mime.ExtensionsByType _ _ _) as [[|ext exts]|] eqn:Hext; try discriminate.
  split; run_handler; rewrite <- negb_orb, Hok; run_handler; destruct w; reflexivity.
Qed.

Variable video : Video.
Hypothesis Hrecord : db w !! videoID = Some video.

(** C5, as amended. For an authenticated user who does not own the
    record, both versions of the video handler answer 401; the thumbnail
    handler answers 401 when the form and the content type pass its
    checks, and 400 when they do not, because it makes these checks before
    it fetches the record.  In every case the metadata store, the disk and
    the object store are left as they were. *)
Theorem non_owner_rejected :
  UserID video <> userID ->
  (status (serve (FastStart.handlerUploadVideo lib cfg io r) w)
     = Some StatusUnauthorized
   /\ final (serve (FastStart.handlerUploadVideo lib cfg io r) w) = w)
  /\ (status (serve (RandomKey.handlerUploadVideo lib cfg io r) w)
        = Some StatusUnauthorized
      /\ final (serve (RandomKey.handlerUploadVideo lib cfg io r) w) = w)
  /\ (status (serve (handlerUploadThumbnail lib cfg io r) w)
        = Some (if thumbnail_form_ok lib r
                then StatusUnauthorized else StatusBadRequest)
      /\ final (serve (handlerUploadThumbnail lib cfg io r) w) = w).
Proof.
  intros Hown. apply (bool_decide_eq_false_2 _) in Hown.
  repeat split; try (run_handler; destruct w; reflexivity).
  - unfold thumbnail_form_ok.
    destruct (Multipart r) as [form|] eqn:Hform; [|run_handler; reflexivity].
    destruct (form_file form "thumbnail") as [header|] eqn:Hfile;
      [|run_handler; reflexivity].
    destruct (Mime.ExtensionsByType _ _ _) as [[|ext exts]|] eqn:Hext;
      try (run_handler; reflexivity).
    run_handler. rewrite <- negb_orb.
    destruct (String.eqb ext ".jpg" || String.eqb ext ".png"); run_handler; reflexivity.
  - destruct (Multipart r) as [form|] eqn:Hform; [|run_handler; destruct w; reflexivity].
    destruct (form_file form "thumbnail") as [header|] eqn:Hfile;
      [|run_handler; destruct w; reflexivity].
    destruct (Mime.ExtensionsByType (mime_ParseMediaType lib) (mime_system lib)
                (HeaderContentType header)) as [[|ext exts]|] eqn:Hext;
      try (run_handler; destruct w; reflexivity).
    run_handler.
    destruct (negb (String.eqb ext ".jpg") && negb (String.eqb ext ".png"));
      run_handler; destruct w; reflexivity.
Qed.
End Authenticated.

Lemma video_fetch_failure_is_500_witness :
  status (serve (FastStart.handlerUploadVideo Example.lib Example.cfg
                   (Example.io "1" Example.zeros)
                   (Example.upload "alice" "video" "video/mp4")) Example.empty_world)
    = Some StatusInternalServerError
  /\ status (serve (RandomKey.handlerUploadVideo Example.lib Example.cfg
                      (Example.io "1" Example.zeros)
                      (Example.upload "alice" "video" "video/mp4")) Example.empty_world)
    = Some StatusInternalServerError.
Proof.
  apply (video_fetch_failure_is_500 Example.lib Example.cfg
           (Example.io "1" Example.zeros) (Example.upload "alice" "video" "video/mp4")
           Example.empty_world Example.videoID Example.alice "alice");
    reflexivity.
Defined.

Lemma non_owner_rejected_witness :
  status (serve (handlerUploadThumbnail Example.lib Example.cfg
                   (Example.io "1" Example.zeros)
                   (Example.upload "bob" "thumbnail" "image/png")) Example.world)
    = Some StatusUnauthorized.
Proof.
  apply (non_owner_rejected Example.lib Example.cfg (Example.io "1" Example.zeros)
           (Example.upload "bob" "thumbnail" "image/png") Example.world
           Example.videoID Example.bob "bob" eq_refl eq_refl eq_refl
           Example.record eq_refl).
  vm_compute. discriminate.
Defined.

(** C5, as stated, fails: a non-owner whose thumbnail upload declares
    text/plain is answered 400, not 401. *)
Lemma non_owner_thumbnail_not_always_401 :
  ~ (forall (lib : Lib) (cfg : apiConfig) (io : Oracle) (r : Request) (w : World)
            (videoID userID : UUID) (token : string) (video : Video),
        uuid_Parse lib (PathVideoID r) = Some videoID ->
        auth_GetBearerToken lib (Header r) = Some token ->
        auth_ValidateJWT lib token (jwtSecret cfg) = Some userID ->
        db w !! videoID = Some video ->
        UserID video <> userID ->
        (status (serve (handlerUploadThumbnail lib cfg io r) w) = Some StatusUnauthorized
         /\ final (serve (handlerUploadThumbnail lib cfg io r) w) = w)
        /\ (status (serve (FastStart.handlerUploadVideo lib cfg io r) w)
              = Some StatusUnauthorized
            /\ final (serve (FastStart.handlerUploadVideo lib cfg io r) w) = w)
        /\ (status (serve (RandomKey.handlerUploadVideo lib cfg io r) w)
              = Some StatusUnauthorized
            /\ final (serve (RandomKey.handlerUploadVideo lib cfg io r) w) = w)).
Proof.
  intros H.
  destruct (H Example.lib Example.cfg (Example.io "1" Example.zeros)
              (Example.upload "bob" "thumbnail" "text/plain") Example.world
              Example.videoID Example.bob "bob" Example.record
              eq_refl eq_refl eq_refl eq_refl ltac:(vm_compute; discriminate))
    as [[Hstatus _] _].
  vm_compute in Hstatus. discriminate Hstatus.
Qed.

(** ** Every path through a handler *)

(** Split on the innermost undetermined outcome. *)
Ltac split_outcome :=
  match goal with
  | |- context [match ?x with _ => _ end] =>
      lazymatch x with
      | context [match _ with _ => _ end] => fail
      | _ => destruct x eqn:?
      end
  end.

Ltac all_paths :=
  unfold_handlers; cbn;
  repeat (first [ progress rewrite lookup_insert_eq
                | progress rewrite temp_file_name, fast_start_of_mp4
                | progress rewrite fast_start_of_mp4
                | split_outcome ]; cbn).

Ltac not_ok H := exfalso; vm_compute in H; discriminate H.

(** C6, as amended. On every path both versions of the video handler take
    their steps in the order authenticate, fetch, ownership, decode,
    validate, persist, update, and a successful upload takes all seven.
    The thumbnail handler decodes the form and validates the media type
    before it fetches the record and checks ownership: its order is
    authenticate, decode, validate, fetch, ownership, persist, update. *)
Theorem handler_step_order :
  forall (lib : Lib) (cfg : apiConfig) (io : Oracle) (r : Request) (w : World),
    (follows videoOrder
       (events (serve (FastStart.handlerUploadVideo lib cfg io r) w)) = true
     /\ (status (serve (FastStart.handlerUploadVideo lib cfg io r) w) = Some StatusOK ->
         compress (steps (events (serve (FastStart.handlerUploadVideo lib cfg io r) w)))
           = videoOrder))
    /\ (follows videoOrder
          (events (serve (RandomKey.handlerUploadVideo lib cfg io r) w)) = true
        /\ (status (serve (RandomKey.handlerUploadVideo lib cfg io r) w) = Some StatusOK ->
            compress (steps (events (serve (RandomKey.handlerUploadVideo lib cfg io r) w)))
              = videoOrder))
    /\ (follows thumbnailOrder
          (events (serve (handlerUploadThumbnail lib cfg io r) w)) = true
        /\ (status (serve (handlerUploadThumbnail lib cfg io r) w) = Some StatusOK ->
            compress (steps (events (serve (handlerUploadThumbnail lib cfg io r) w)))
              = thumbnailOrder)).
Proof.
  intros lib cfg io r w.
  split; [|split]; split; all_paths; try reflexivity; intros Hok; not_ok Hok.
Qed.

Lemma handler_step_order_witness :
  compress (steps (events (serve (handlerUploadThumbnail Example.lib Example.cfg
                                    (Example.io "1" Example.zeros)
                                    (Example.upload "alice" "thumbnail" "image/png"))
                                 Example.world)))
    = [Authenticate; Decode; Validate; Fetch; Ownership; Persist; Update].
Proof.
  apply (handler_step_order Example.lib Example.cfg (Example.io "1" Example.zeros)
           (Example.upload "alice" "thumbnail" "image/png") Example.world).
  vm_compute. reflexivity.
Defined.

(** C6, as stated, fails for the thumbnail handler: in a successful upload
    the form is decoded and the media type validated before the record is
    fetched. *)
Lemma thumbnail_decodes_before_fetch :
  ~ (forall (lib : Lib) (cfg : apiConfig) (io : Oracle) (r : Request) (w : World),
        follows videoOrder (events (serve (FastStart.handlerUploadVideo lib cfg io r) w)) = true
        /\ follows videoOrder (events (serve (RandomKey.handlerUploadVideo lib cfg io r) w)) = true
        /\ follows videoOrder (events (serve (handlerUploadThumbnail lib cfg io r) w)) = true).
Proof.
  intros H.
  destruct (H Example.lib Example.cfg (Example.io "1" Example.zeros)
              (Example.upload "alice" "thumbnail" "image/png") Example.world)
    as (_ & _ & Hthumb).
  vm_compute in Hthumb. discriminate Hthumb.
Qed.

(** ** Successful uploads *)

Section Success.
Variables (lib : Lib) (cfg : apiConfig) (io : Oracle) (r : Request) (w : World).

Lemma fast_start_success :
  let run := serve (FastStart.handlerUploadVideo lib cfg io r) w in
  status run = Some StatusOK ->
  exists videoID video form header aspectRatio,
    uuid_Parse lib (PathVideoID r) = Some videoID
    /\ db w !! videoID = Some video
    /\ Multipart r = Some form
    /\ form_file form "video" = Some header
    /\ getVideoAspectRatio (ffprobe io (Content header)) (json_Unmarshal lib)
       = Ok aspectRatio
    /\ let s3Key := aspectString aspectRatio +:+ "/" +:+ uuid_String lib videoID
                      +:+ ".mp4" in
       let videoURL := "https://" +:+ s3CfDistribution cfg +:+ "/" +:+ s3Key in
       put_keys (events run) = [s3Key]
       /\ response run
          = Some {| Code := StatusOK; Body_ := VideoBody (setVideoURL video videoURL) |}
       /\ db (final run) = <[ID video := setVideoURL video videoURL]> (db w).
Proof.
  intros run Hok. subst run. revert Hok.
  all_paths; intros Hok; try not_ok Hok.
  do 5 eexists. repeat split; try eassumption; reflexivity.
Qed.

Lemma random_key_success :
  let run := serve (RandomKey.handlerUploadVideo lib cfg io r) w in
  status run = Some StatusOK ->
  exists videoID video form header aspectRatio key,
    uuid_Parse lib (PathVideoID r) = Some videoID
    /\ db w !! videoID = Some video
    /\ Multipart r = Some form
    /\ form_file form "video" = Some header
    /\ getVideoAspectRatio (ffprobe io (Content header)) (json_Unmarshal lib)
       = Ok aspectRatio
    /\ randRead io = Some key
    /\ let s3Key := aspectString aspectRatio +:+ "/videos/"
                      +:+ Base64.EncodeToString key +:+ ".mp4" in
       let videoURL := "https://" +:+ s3Bucket cfg +:+ ".s3." +:+ s3Region cfg
                         +:+ ".amazonaws.com/" +:+ s3Key in
       put_keys (events run) = [s3Key]
       /\ response run
          = Some {| Code := StatusOK; Body_ := MapBody [("videoURL", videoURL)] |}
       /\ db (final run) = <[ID video := setVideoURL video videoURL]> (db w).
Proof.
  intros run Hok. subst run. revert Hok.
  all_paths; intros Hok; try not_ok Hok.
  all: do 6 eexists; repeat split; try eassumption; reflexivity.
Qed.

Lemma thumbnail_success :
  let run := serve (handlerUploadThumbnail lib cfg io r) w in
  status run = Some StatusOK ->
  exists videoID video form header ext rest key,
    uuid_Parse lib (PathVideoID r) = Some videoID
    /\ db w !! videoID = Some video
    /\ Multipart r = Some form
    /\ form_file form "thumbnail" = Some header
    /\ Mime.ExtensionsByType (mime_ParseMediaType lib) (mime_system lib)
         (HeaderContentType header) = Some (ext :: rest)
    /\ (ext = ".jpg" \/ ext = ".png")
    /\ randRead io = Some key
    /\ let name := Base64.EncodeToString key +:+ ext in
       let thumbnailURL := "http://localhost:" +:+ port cfg +:+ "/assets/" +:+ name in
       asset_names (events run) = [name]
       /\ response run
          = Some {| Code := StatusOK;
                    Body_ := VideoBody (setThumbnailURL video thumbnailURL) |}
       /\ db (final run) = <[ID video := setThumbnailURL video thumbnailURL]> (db w)
       /\ disk (final run) !! filepath_Join lib (assetsRoot cfg) name
          = Some (Content header).
Proof.
  intros run Hok. subst run. revert Hok.
  all_paths; intros Hok; try not_ok Hok.
  all: do 7 eexists; repeat split; try eassumption; try reflexivity;
    try apply lookup_insert_eq.
  match goal with
  | H : negb (negb (?e =? ".jpg")%string && negb (?e =? ".png")%string) = true |- _ =>
      destruct (String.eqb_spec e ".jpg"); [left; assumption|];
      destruct (String.eqb_spec e ".png"); [right; assumption | discriminate H]
  end.
Qed.
End Success.

(** ** A failing PutObject *)

(** C1. In the random-key version the error of [PutObject] is never read:
    when the call fails and the update of the record succeeds, the handler
    answers 200 and the record carries the URL of an object that was not
    stored. *)
Theorem put_failure_ignored_by_random_key :
  forall (lib : Lib) (cfg : apiConfig) (io : Oracle) (r : Request) (w : World),
    let run := serve (RandomKey.handlerUploadVideo lib cfg io r) w in
    putObjectOk io = false ->
    updateVideoOk io = true ->
    put_keys (events run) <> [] ->
    status run = Some StatusOK
    /\ s3 (final run) = s3 w
    /\ exists video url,
         db (final run) = <[ID video := setVideoURL video url]> (db w)
         /\ db (final run) !! ID video = Some (setVideoURL video url).
Proof.
  intros lib cfg io r w run Hput Hupd. subst run.
  all_paths; intros Hreached; try congruence;
    try (exfalso; apply Hreached; reflexivity).
  repeat split. do 2 eexists. split; [reflexivity | apply lookup_insert_eq].
Qed.

Lemma put_failure_ignored_by_random_key_witness :
  status (serve (RandomKey.handlerUploadVideo Example.lib Example.cfg
                   Example.io_put_fails
                   (Example.upload "alice" "video" "video/mp4")) Example.world)
    = Some StatusOK.
Proof.
  apply (put_failure_ignored_by_random_key Example.lib Example.cfg Example.io_put_fails
           (Example.upload "alice" "video" "video/mp4") Example.world);
    [reflexivity | reflexivity | vm_compute; discriminate].
Defined.

(** X7. The fast-start version reads the error: a failing [PutObject] is
    answered 500 and neither the record nor the object store changes. *)
Lemma put_failure_stops_fast_start :
  forall (lib : Lib) (cfg : apiConfig) (io : Oracle) (r : Request) (w : World),
    let run := serve (FastStart.handlerUploadVideo lib cfg io r) w in
    putObjectOk io = false ->
    put_keys (events run) <> [] ->
    status run = Some StatusInternalServerError
    /\ db (final run) = db w
    /\ s3 (final run) = s3 w.
Proof.
  intros lib cfg io r w run Hput. subst run.
  all_paths; intros Hreached; try congruence;
    try (exfalso; apply Hreached; reflexivity).
  all: repeat split; reflexivity.
Qed.

Lemma getVideoAspectRatio_no_panic (run : option (list byte))
    (unmarshal : list byte -> option FFProbeOutput) :
  getVideoAspectRatio run unmarshal <> Panic.
Proof.
  unfold getVideoAspectRatio, classify.
  destruct run as [out|]; [|discriminate].
  destruct (unmarshal out) as [o|]; [|discriminate].
  destruct (Streams o) as [|s rest]; [discriminate|]. cbv zeta.
  destruct (within_tolerance (ratio_of s) 16 9); [discriminate|].
  destruct (within_tolerance (ratio_of s) 9 16); discriminate.
Qed.

(** X25. The handlers never panic: the name of the temporary file ends in
    ".mp4", so the slice in [processVideoForFastStart] is in bounds. *)
Lemma video_handlers_respond :
  forall (lib : Lib) (cfg : apiConfig) (io : Oracle) (r : Request) (w : World),
    is_Some (response (serve (FastStart.handlerUploadVideo lib cfg io r) w))
    /\ is_Some (response (serve (RandomKey.handlerUploadVideo lib cfg io r) w))
    /\ is_Some (response (serve (handlerUploadThumbnail lib cfg io r) w)).
Proof.
  intros lib cfg io r w. repeat split; all_paths;
    first [ eexists; reflexivity
          | exfalso; eapply getVideoAspectRatio_no_panic; eassumption ].
Qed.

(** ** The content type of a thumbnail *)

Lemma insert_sorted_elem (a x : string) (l : list string) :
  x ∈ Mime.insert_sorted a l -> x = a \/ x ∈ l.
Proof.
  induction l as [|y l IH]; cbn.
  - intros H. apply list_elem_of_singleton in H. auto.
  - destruct (String.leb a y).
    + intros H. apply elem_of_cons in H. exact H.
    + intros H. apply elem_of_cons in H as [-> | H].
      * right. apply list_elem_of_here.
      * destruct (IH H) as [-> | Hin]; [auto | right; apply list_elem_of_further, Hin].
Qed.

Lemma Sort_elem (x : string) (l : list string) : x ∈ Mime.Sort l -> x ∈ l.
Proof.
  induction l as [|a l IH]; cbn [Mime.Sort fold_right]; [auto|].
  intros H. apply insert_sorted_elem in H as [-> | H].
  - apply list_elem_of_here.
  - apply list_elem_of_further, IH, H.
Qed.

(** With the built-in table alone, ".jpg" and ".png" are listed for
    image/jpeg and image/png only. *)
Lemma builtin_image_extension (ext ty : string) :
  ext ∈ Mime.registered [] ty ->
  ext = ".jpg" \/ ext = ".png" ->
  ty = "image/jpeg" \/ ty = "image/png".
Proof.
  unfold Mime.registered. rewrite elem_of_remove_dups, list_elem_of_fmap.
  intros ([e t] & -> & Hin) Hext. apply list_elem_of_filter in Hin as [Hty Hin].
  cbn in Hty, Hext. subst t. rewrite app_nil_r in Hin.
  unfold Mime.builtinTypesLower in Hin.
  repeat (apply elem_of_cons in Hin as [E | Hin];
          [injection E as -> ->; first [solve [auto] | destruct Hext as [X|X]; discriminate X]|]).
  inversion Hin.
Qed.

Section ThumbnailType.
Variables (lib : Lib) (cfg : apiConfig) (io : Oracle) (r : Request) (w : World).
Variables (videoID userID : UUID) (token : string).
Variables (form : list (string * FileHeader)) (header : FileHeader).
Hypothesis Hid : uuid_Parse lib (PathVideoID r) = Some videoID.
Hypothesis Htoken : auth_GetBearerToken lib (Header r) = Some token.
Hypothesis Hjwt : auth_ValidateJWT lib token (jwtSecret cfg) = Some userID.
Hypothesis Hform : Multipart r = Some form.
Hypothesis Hfile : form_file form "thumbnail" = Some header.

(** C3. A thumbnail declared image/jpeg is rejected with 400 and nothing
    changes, whatever the system mime tables add: the extensions listed
    for image/jpeg are sorted and include ".jpeg", so the first of them is
    never ".jpg". *)
Theorem jpeg_thumbnail_rejected :
  mime_ParseMediaType lib (HeaderContentType header) = Some "image/jpeg" ->
  status (serve (handlerUploadThumbnail lib cfg io r) w) = Some StatusBadRequest
  /\ final (serve (handlerUploadThumbnail lib cfg io r) w) = w.
Proof.
  intros Hparse.
  assert (Hexts : exists ext rest,
             Mime.ExtensionsByType (mime_ParseMediaType lib) (mime_system lib)
               (HeaderContentType header) = Some (ext :: rest)
             /\ String.eqb ext ".jpg" = false /\ String.eqb ext ".png" = false).
  { destruct (jpeg_first_extension (mime_system lib)) as (ext & rest & Hs & Hj & Hp).
    exists ext, rest. unfold Mime.ExtensionsByType. rewrite Hparse, Hs. auto. }
  destruct Hexts as (ext & rest & Hexts & Hj & Hp).
  split; run_handler; destruct w; reflexivity.
Qed.

(** X14. A content type that does not parse, or for which the built-in table
    lists no ".jpg" or ".png" first, is rejected with 400 as well. *)
Lemma other_thumbnail_type_rejected :
  mime_system lib = [] ->
  mime_ParseMediaType lib (HeaderContentType header) <> Some "image/jpeg" ->
  mime_ParseMediaType lib (HeaderContentType header) <> Some "image/png" ->
  status (serve (handlerUploadThumbnail lib cfg io r) w) = Some StatusBadRequest
  /\ final (serve (handlerUploadThumbnail lib cfg io r) w) = w.
Proof.
  intros Hsys Hnj Hnp.
  destruct (Mime.ExtensionsByType (mime_ParseMediaType lib) (mime_system lib)
              (HeaderContentType header)) as [[|ext rest]|] eqn:Hexts;
    try (split; run_handler; destruct w; reflexivity).
  assert (Hbad : negb (negb (String.eqb ext ".jpg") && negb (String.eqb ext ".png"))
                 = false).
  { unfold Mime.ExtensionsByType in Hexts. rewrite Hsys in Hexts.
    destruct (mime_ParseMediaType lib (HeaderContentType header)) as [ty|] eqn:Hty;
      [|discriminate]. injection Hexts as Hexts.
    assert (Hin : ext ∈ Mime.registered [] ty).
    { apply Sort_elem. rewrite Hexts. apply list_elem_of_here. }
    destruct (String.eqb_spec ext ".jpg") as [E1|N1];
      [|destruct (String.eqb_spec ext ".png") as [E2|N2]; [|reflexivity]];
      exfalso; destruct (builtin_image_extension ext ty Hin ltac:(auto)); congruence. }
  split; run_handler; destruct w; reflexivity.
Qed.

(** X19. A thumbnail declared image/png is accepted (built-in table): the file
    is written and the record carries its URL. *)
Lemma png_thumbnail_accepted (video : Video) (key : list byte) :
  mime_system lib = [] ->
  mime_ParseMediaType lib (HeaderContentType header) = Some "image/png" ->
  db w !! videoID = Some video ->
  UserID video = userID ->
  randRead io = Some key ->
  createOk io = true -> copyAsset io = None -> updateVideoOk io = true ->
  let run := serve (handlerUploadThumbnail lib cfg io r) w in
  let name := Base64.EncodeToString key +:+ ".png" in
  let thumbnailURL := "http://localhost:" +:+ port cfg +:+ "/assets/" +:+ name in
  status run = Some StatusOK
  /\ db (final run) = <[ID video := setThumbnailURL video thumbnailURL]> (db w)
  /\ disk (final run) !! filepath_Join lib (assetsRoot cfg) name = Some (Content header).
Proof.
  intros Hsys Hparse Hrec Hown Hrand Hcreate Hcopy Hupdate.
  assert (Hexts : Mime.ExtensionsByType (mime_ParseMediaType lib) (mime_system lib)
                    (HeaderContentType header) = Some [".png"]).
  { unfold Mime.ExtensionsByType. rewrite Hparse, Hsys. reflexivity. }
  assert (Hguard : negb (negb (String.eqb ".png" ".jpg")
                         && negb (String.eqb ".png" ".png")) = true) by reflexivity.
  apply (bool_decide_eq_true_2 _) in Hown.
  repeat split; run_handler; try reflexivity. apply lookup_insert_eq.
Qed.
End ThumbnailType.

Lemma jpeg_thumbnail_rejected_witness :
  status (serve (handlerUploadThumbnail Example.lib Example.cfg
                   (Example.io "1" Example.zeros)
                   (Example.upload "alice" "thumbnail" "image/jpeg")) Example.world)
    = Some StatusBadRequest.
Proof.
  apply (jpeg_thumbnail_rejected Example.lib Example.cfg (Example.io "1" Example.zeros)
           (Example.upload "alice" "thumbnail" "image/jpeg") Example.world
           Example.videoID Example.alice "alice" _ _
           eq_refl eq_refl eq_refl eq_refl eq_refl eq_refl).
Defined.

(** ** Object keys and asset names *)

(** C7, as amended. A successful upload of the fast-start version stores
    under {aspectClass}/{videoID}.mp4 and one of the random-key version
    under {aspectClass}/videos/{randomName}.mp4, where aspectClass is the
    class computed from the probe of the uploaded bytes and randomName the
    base64 of the random bytes; a successful thumbnail upload creates the
    asset {randomName}{ext} with ext ".jpg" or ".png". *)
Theorem storage_key_format :
  forall (lib : Lib) (cfg : apiConfig) (io : Oracle) (r : Request) (w : World),
    (status (serve (FastStart.handlerUploadVideo lib cfg io r) w) = Some StatusOK ->
     exists videoID form header aspectRatio,
       uuid_Parse lib (PathVideoID r) = Some videoID
       /\ Multipart r = Some form
       /\ form_file form "video" = Some header
       /\ getVideoAspectRatio (ffprobe io (Content header)) (json_Unmarshal lib)
          = Ok aspectRatio
       /\ put_keys (events (serve (FastStart.handlerUploadVideo lib cfg io r) w))
          = [aspectString aspectRatio +:+ "/" +:+ uuid_String lib videoID +:+ ".mp4"])
    /\ (status (serve (RandomKey.handlerUploadVideo lib cfg io r) w) = Some StatusOK ->
        exists form header aspectRatio key,
          Multipart r = Some form
          /\ form_file form "video" = Some header
          /\ getVideoAspectRatio (ffprobe io (Content header)) (json_Unmarshal lib)
             = Ok aspectRatio
          /\ randRead io = Some key
          /\ put_keys (events (serve (RandomKey.handlerUploadVideo lib cfg io r) w))
             = [aspectString aspectRatio +:+ "/videos/"
                  +:+ Base64.EncodeToString key +:+ ".mp4"])
    /\ (status (serve (handlerUploadThumbnail lib cfg io r) w) = Some StatusOK ->
        exists key ext,
          randRead io = Some key
          /\ (ext = ".jpg" \/ ext = ".png")
          /\ asset_names (events (serve (handlerUploadThumbnail lib cfg io r) w))
             = [Base64.EncodeToString key +:+ ext])
    /\ (forall aspectRatio : string,
          aspectString aspectRatio = "landscape"
          \/ aspectString aspectRatio = "portrait"
          \/ aspectString aspectRatio = "other").
Proof.
  intros lib cfg io r w. repeat split.
  - intros Hok.
    destruct (fast_start_success lib cfg io r w Hok)
      as (videoID & video & form & header & a & H1 & H2 & H3 & H4 & H5 & H6 & _).
    exists videoID, form, header, a. auto.
  - intros Hok.
    destruct (random_key_success lib cfg io r w Hok)
      as (videoID & video & form & header & a & key & H1 & H2 & H3 & H4 & H5 & H6 & H7 & _).
    exists form, header, a, key. auto.
  - intros Hok.
    destruct (thumbnail_success lib cfg io r w Hok)
      as (videoID & video & form & header & ext & rest & key
          & H1 & H2 & H3 & H4 & H5 & H6 & H7 & H8 & _).
    exists key, ext. auto.
  - apply aspectString_range.
Qed.

Lemma storage_key_format_witness :
  exists form header aspectRatio key,
    Multipart (Example.upload "alice" "video" "video/mp4") = Some form
    /\ form_file form "video" = Some header
    /\ getVideoAspectRatio (ffprobe (Example.io "1" Example.zeros) (Content header))
         (json_Unmarshal Example.lib) = Ok aspectRatio
    /\ randRead (Example.io "1" Example.zeros) = Some key
    /\ put_keys (events (serve (RandomKey.handlerUploadVideo Example.lib Example.cfg
                                  (Example.io "1" Example.zeros)
                                  (Example.upload "alice" "video" "video/mp4"))
                               Example.world))
       = [aspectString aspectRatio +:+ "/videos/"
            +:+ Base64.EncodeToString key +:+ ".mp4"].
Proof.
  apply (storage_key_format Example.lib Example.cfg (Example.io "1" Example.zeros)
           (Example.upload "alice" "video" "video/mp4") Example.world).
  vm_compute. reflexivity.
Defined.

(** C7, as stated, fails for the random-key version: its key has the
    segment "videos/" between the aspect class and the name, so it is not
    {aspectClass}/{name}.mp4 with name the identifier or the random name. *)
Lemma random_key_has_videos_segment :
  ~ (forall (lib : Lib) (cfg : apiConfig) (io : Oracle) (r : Request) (w : World)
            (videoID : UUID) (key : list byte),
        status (serve (RandomKey.handlerUploadVideo lib cfg io r) w) = Some StatusOK ->
        uuid_Parse lib (PathVideoID r) = Some videoID ->
        randRead io = Some key ->
        exists aspectClass name,
          (aspectClass = "landscape" \/ aspectClass = "portrait" \/ aspectClass = "other")
          /\ (name = uuid_String lib videoID \/ name = Base64.EncodeToString key)
          /\ put_keys (events (serve (RandomKey.handlerUploadVideo lib cfg io r) w))
             = [aspectClass +:+ "/" +:+ name +:+ ".mp4"]).
Proof.
  intros H.
  destruct (H Example.lib Example.cfg (Example.io "1" Example.zeros)
              (Example.upload "alice" "video" "video/mp4") Example.world
              Example.videoID Example.zeros
              ltac:(vm_compute; reflexivity) eq_refl eq_refl)
    as (aspectClass & name & Haspect & Hname & Hkey).
  destruct Haspect as [-> | [-> | ->]]; destruct Hname as [-> | ->];
    vm_compute in Hkey; discriminate Hkey.
Qed.

(** ** Uploading twice *)




Lemma example_world_wf : db_wf (db Example.world).
Proof.
  intros id v H. cbn [db Example.world] in H.
  apply lookup_singleton_Some in H as [<- <-]. reflexivity.
Qed.



Lemma zero_height_is_other_witness :
  getVideoAspectRatio (Some [])
    (fun _ => Some {| Streams := [{| Width := 1920; Height := 0 |}] |}) = Ok "other".
Proof.
  apply (zero_height_is_other 1920 [] []
           (fun _ => Some {| Streams := [{| Width := 1920; Height := 0 |}] |})).
  reflexivity.
Defined.

(* ===================================================================== *)
(** * Part III: further properties of the handlers                        *)
(* ===================================================================== *)

(** ** Requests that are turned away *)

Ltac run_upload :=
  unfold_handlers;
  repeat (cbn; first [ progress rewrite lookup_insert_eq
                     | progress rewrite temp_file_name, fast_start_of_mp4
                     | progress rewrite fast_start_of_mp4
                     | take_branch ]);
  cbn.

(** X1. An identifier that is not a UUID is answered 400 by all three handlers
    before anything else happens: no token is read, no store is consulted. *)
Theorem invalid_id_is_400 :
  forall (lib : Lib) (cfg : apiConfig) (io : Oracle) (r : Request) (w : World)
         (h : Lib -> apiConfig -> Oracle -> Request -> Handler unit),
    h = FastStart.handlerUploadVideo \/ h = RandomKey.handlerUploadVideo
    \/ h = handlerUploadThumbnail ->
    uuid_Parse lib (PathVideoID r) = None ->
    status (serve (h lib cfg io r) w) = Some StatusBadRequest
    /\ events (serve (h lib cfg io r) w) = []
    /\ final (serve (h lib cfg io r) w) = w.
Proof.
  intros lib cfg io r w h [-> | [-> | ->]] Hid;
    repeat split; run_handler; destruct w; reflexivity.
Qed.

Lemma invalid_id_is_400_witness :
  status (serve (handlerUploadThumbnail Example.lib Example.cfg
                   (Example.io "1" Example.zeros)
                   {| PathVideoID := "not-a-uuid"; Header := []; BodyLen := 0;
                      Multipart := None |}) Example.world)
    = Some StatusBadRequest.
Proof.
  apply (invalid_id_is_400 Example.lib Example.cfg (Example.io "1" Example.zeros)
           {| PathVideoID := "not-a-uuid"; Header := []; BodyLen := 0; Multipart := None |}
           Example.world handlerUploadThumbnail).
  - right. right. reflexivity.
  - reflexivity.
Defined.

(** X2. A request without a bearer token, or with one that does not validate,
    is answered 401 by all three handlers; the metadata store is not
    consulted and nothing changes. *)
Theorem unauthenticated_is_401 :
  forall (lib : Lib) (cfg : apiConfig) (io : Oracle) (r : Request) (w : World)
         (h : Lib -> apiConfig -> Oracle -> Request -> Handler unit) (videoID : UUID),
    h = FastStart.handlerUploadVideo \/ h = RandomKey.handlerUploadVideo
    \/ h = handlerUploadThumbnail ->
    uuid_Parse lib (PathVideoID r) = Some videoID ->
    (auth_GetBearerToken lib (Header r) = None
     \/ exists token, auth_GetBearerToken lib (Header r) = Some token
                      /\ auth_ValidateJWT lib token (jwtSecret cfg) = None) ->
    status (serve (h lib cfg io r) w) = Some StatusUnauthorized
    /\ steps (events (serve (h lib cfg io r) w)) ⊆ [Authenticate]
    /\ final (serve (h lib cfg io r) w) = w.
Proof.
  intros lib cfg io r w h videoID [-> | [-> | ->]] Hid [Hnone | (token & Htoken & Hjwt)];
    repeat split; run_handler; try (destruct w; reflexivity);
    intros x Hx; repeat (apply elem_of_cons in Hx as [-> | Hx]; [apply list_elem_of_here|]);
    inversion Hx.
Qed.

Lemma unauthenticated_is_401_witness :
  status (serve (FastStart.handlerUploadVideo Example.lib Example.cfg
                   (Example.io "1" Example.zeros)
                   (Example.upload "mallory" "video" "video/mp4")) Example.world)
    = Some StatusUnauthorized.
Proof.
  apply (unauthenticated_is_401 Example.lib Example.cfg (Example.io "1" Example.zeros)
           (Example.upload "mallory" "video" "video/mp4") Example.world
           FastStart.handlerUploadVideo Example.videoID).
  - left. reflexivity.
  - reflexivity.
  - right. exists "mallory". split; reflexivity.
Defined.

Lemma temp_file_name_suffix (dir prefix rnd suffix : string) :
  joinPath dir (prefix +:+ rnd +:+ suffix) = joinPath dir (prefix +:+ rnd) +:+ suffix.
Proof. rewrite <- joinPath_append, append_assoc. reflexivity. Qed.

(** The ownership test succeeds when the token validates to the owner, and
    the media type test on video/mp4. *)
Ltac owner_facts video :=
  assert (Hown : bool_decide (UserID video = UserID video) = true)
    by (apply bool_decide_eq_true_2; reflexivity);
  assert (Hmp : String.eqb "video/mp4" "video/mp4" = true) by reflexivity.

Section OwnerRequest.
Variables (lib : Lib) (cfg : apiConfig) (io : Oracle) (r : Request) (w : World).
Variables (videoID : UUID) (token : string) (video : Video).
Hypothesis Hid : uuid_Parse lib (PathVideoID r) = Some videoID.
Hypothesis Htoken : auth_GetBearerToken lib (Header r) = Some token.
Hypothesis Hjwt : auth_ValidateJWT lib token (jwtSecret cfg) = Some (UserID video).
Hypothesis Hrecord : db w !! videoID = Some video.

(** X3. A video upload by the owner whose form cannot be decoded is answered
    400 and changes nothing: the body exceeds the limit of 1 GiB, it is no
    multipart form, or the form has no file named "video". *)
Theorem undecodable_video_form_is_400 :
  (maxUploadSize < BodyLen r
   \/ Multipart r = None
   \/ exists form, Multipart r = Some form /\ form_file form "video" = None) ->
  (status (serve (FastStart.handlerUploadVideo lib cfg io r) w) = Some StatusBadRequest
   /\ final (serve (FastStart.handlerUploadVideo lib cfg io r) w) = w)
  /\ (status (serve (RandomKey.handlerUploadVideo lib cfg io r) w) = Some StatusBadRequest
      /\ final (serve (RandomKey.handlerUploadVideo lib cfg io r) w) = w).
Proof.
  owner_facts video.
  intros Hbad.
  assert (Hnone : (if BodyLen r <=? maxUploadSize
                   then match Multipart r with
                        | Some form => form_file form "video"
                        | None => None
                        end
                   else None) = None).
  { destruct (Z.leb_spec (BodyLen r) maxUploadSize) as [Hle|Hgt]; [|reflexivity].
    destruct Hbad as [Hbig | [-> | (form & -> & Hfile)]];
      [lia | reflexivity | exact Hfile]. }
  repeat split; run_upload; destruct w; reflexivity.
Qed.

Variables (form : list (string * FileHeader)) (header : FileHeader).
Hypothesis Hsize : (BodyLen r <=? maxUploadSize) = true.
Hypothesis Hform : Multipart r = Some form.
Hypothesis Hfile : form_file form "video" = Some header.

(** X4. A video upload whose declared media type does not parse, or parses to
    anything but video/mp4, is answered 400; no temporary file is created
    and nothing changes. *)
Theorem unsupported_video_type_is_400 :
  mime_ParseMediaType lib (HeaderContentType header) <> Some "video/mp4" ->
  (status (serve (FastStart.handlerUploadVideo lib cfg io r) w) = Some StatusBadRequest
   /\ final (serve (FastStart.handlerUploadVideo lib cfg io r) w) = w)
  /\ (status (serve (RandomKey.handlerUploadVideo lib cfg io r) w) = Some StatusBadRequest
      /\ final (serve (RandomKey.handlerUploadVideo lib cfg io r) w) = w).
Proof.
  owner_facts video.
  intros Hbad.
  destruct (mime_ParseMediaType lib (HeaderContentType header)) as [mediaType|] eqn:Hmedia;
    [|repeat split; run_upload; destruct w; reflexivity].
  assert (Hne : String.eqb mediaType "video/mp4" = false)
    by (apply String.eqb_neq; congruence).
  repeat split; run_upload; destruct w; reflexivity.
Qed.

Variables (rnd : string).
Hypothesis Hmedia : mime_ParseMediaType lib (HeaderContentType header) = Some "video/mp4".
Hypothesis Htemp : tempRandom io = Some rnd.
Hypothesis Hcopy : copyTemp io = None.

(** X5. When the probe of the buffered upload fails (ffprobe returns an error,
    its output does not parse, or it lists no stream), both versions answer
    500; the record and the object store are unchanged and the temporary
    file is gone. *)
Theorem probe_failure_is_500 (e : error) :
  getVideoAspectRatio (ffprobe io (Content header)) (json_Unmarshal lib) = Err e ->
  let tempFile := joinPath (os_TempDir lib) ("tubely-upload-" +:+ rnd +:+ ".mp4") in
  (let run := serve (FastStart.handlerUploadVideo lib cfg io r) w in
   status run = Some StatusInternalServerError
   /\ db (final run) = db w /\ s3 (final run) = s3 w
   /\ disk (final run) !! tempFile = None)
  /\ (let run := serve (RandomKey.handlerUploadVideo lib cfg io r) w in
      status run = Some StatusInternalServerError
      /\ db (final run) = db w /\ s3 (final run) = s3 w
      /\ disk (final run) !! tempFile = None).
Proof.
  owner_facts video.
  intros Hprobe tempFile. subst tempFile.
  repeat split; run_upload; try reflexivity; apply lookup_delete_eq.
Qed.

Variables (aspectRatio : string).
Hypothesis Hprobe :
  getVideoAspectRatio (ffprobe io (Content header)) (json_Unmarshal lib) = Ok aspectRatio.
Hypothesis Hseek : seekOk io = true.

(** X9. The fast-start version, every step succeeding: the object stored under
    {aspect}/{videoID}.mp4 in the configured bucket is the output of the
    rewrite with content type video/mp4, the record carries
    https://{distribution}/{key}, and the answer is 200 with that record. *)
Theorem fast_start_upload_succeeds (processed : list byte) :
  ffmpeg io (Content header) = Some processed ->
  openOk io = true -> putObjectOk io = true -> updateVideoOk io = true ->
  let run := serve (FastStart.handlerUploadVideo lib cfg io r) w in
  let s3Key := aspectString aspectRatio +:+ "/" +:+ uuid_String lib videoID +:+ ".mp4" in
  let record := setVideoURL video ("https://" +:+ s3CfDistribution cfg +:+ "/" +:+ s3Key) in
  response run = Some {| Code := StatusOK; Body_ := VideoBody record |}
  /\ db (final run) = <[ID video := record]> (db w)
  /\ s3 (final run)
     = <[(s3Bucket cfg, s3Key) := {| Body := processed; ContentType := "video/mp4" |}]> (s3 w).
Proof.
  owner_facts video.
  intros Hffmpeg Hopen Hput Hupdate run s3Key record. subst run s3Key record.
  assert (Hdec : bool_decide (is_Some (ffmpeg io (Content header))) = true)
    by (rewrite Hffmpeg; reflexivity).
  repeat split; run_upload; reflexivity.
Qed.

(** X8. The fast-start version does not roll back: when the update of the
    record fails after the object was stored, the answer is 500, the record
    is unchanged and the object stays in the bucket. *)
Theorem fast_start_update_failure_keeps_object (processed : list byte) :
  ffmpeg io (Content header) = Some processed ->
  openOk io = true -> putObjectOk io = true -> updateVideoOk io = false ->
  let run := serve (FastStart.handlerUploadVideo lib cfg io r) w in
  let s3Key := aspectString aspectRatio +:+ "/" +:+ uuid_String lib videoID +:+ ".mp4" in
  status run = Some StatusInternalServerError
  /\ db (final run) = db w
  /\ s3 (final run) !! (s3Bucket cfg, s3Key)
     = Some {| Body := processed; ContentType := "video/mp4" |}.
Proof.
  owner_facts video.
  intros Hffmpeg Hopen Hput Hupdate run s3Key. subst run s3Key.
  assert (Hdec : bool_decide (is_Some (ffmpeg io (Content header))) = true)
    by (rewrite Hffmpeg; reflexivity).
  repeat split; run_upload; reflexivity.
Qed.

(** X6. The fast-start version stops when the rewrite fails: 500, nothing
    stored, the record unchanged. *)
Theorem fast_start_rewrite_failure_is_500 :
  ffmpeg io (Content header) = None ->
  let run := serve (FastStart.handlerUploadVideo lib cfg io r) w in
  status run = Some StatusInternalServerError
  /\ db (final run) = db w /\ s3 (final run) = s3 w.
Proof.
  owner_facts video.
  intros Hffmpeg run. subst run.
  assert (Hdec : bool_decide (is_Some (ffmpeg io (Content header))) = false)
    by (rewrite Hffmpeg; reflexivity).
  destruct (ffmpegPartial io) as [written|] eqn:Hpartial;
    repeat split; run_upload; reflexivity.
Qed.

(** X29. The fast-start version does not clean up after a failed rewrite:
    what ffmpeg left at its output path stays on disk, since the removal
    of that file is deferred only after [processVideoForFastStart]
    returned without an error.  The temporary file is removed. *)
Theorem fast_start_rewrite_failure_leaks_output (written : list byte) :
  ffmpeg io (Content header) = None ->
  ffmpegPartial io = Some written ->
  let run := serve (FastStart.handlerUploadVideo lib cfg io r) w in
  status run = Some StatusInternalServerError
  /\ disk (final run)
       !! joinPath (os_TempDir lib) ("tubely-upload-" +:+ rnd +:+ ".mp4") = None
  /\ disk (final run)
       !! joinPath (os_TempDir lib) ("tubely-upload-" +:+ rnd +:+ "-faststart.mp4")
     = Some written.
Proof.
  owner_facts video.
  intros Hffmpeg Hpartial run. subst run.
  assert (Hdec : bool_decide (is_Some (ffmpeg io (Content header))) = false)
    by (rewrite Hffmpeg; reflexivity).
  rewrite (temp_file_name_suffix _ _ _ "-faststart.mp4").
  repeat split; run_upload; try reflexivity.
  - apply lookup_delete_eq.
  - rewrite lookup_delete_ne, lookup_insert_eq; [reflexivity|].
    intros E. apply append_cancel_l in E. discriminate E.
Qed.

(** X10. The random-key version, every step succeeding: the object stored under
    {aspect}/videos/{randomName}.mp4 holds the uploaded bytes as they came,
    with content type video/mp4; the record carries the bucket URL of that
    key and the answer is 200 with a JSON object holding only the URL. *)
Theorem random_key_upload_succeeds (key : list byte) :
  randRead io = Some key ->
  putObjectOk io = true -> updateVideoOk io = true ->
  let run := serve (RandomKey.handlerUploadVideo lib cfg io r) w in
  let s3Key := aspectString aspectRatio +:+ "/videos/"
                 +:+ Base64.EncodeToString key +:+ ".mp4" in
  let videoURL := "https://" +:+ s3Bucket cfg +:+ ".s3." +:+ s3Region cfg
                    +:+ ".amazonaws.com/" +:+ s3Key in
  response run = Some {| Code := StatusOK; Body_ := MapBody [("videoURL", videoURL)] |}
  /\ db (final run) = <[ID video := setVideoURL video videoURL]> (db w)
  /\ s3 (final run)
     = <[(s3Bucket cfg, s3Key) := {| Body := Content header; ContentType := "video/mp4" |}]>
         (s3 w).
Proof.
  owner_facts video.
  intros Hrand Hput Hupdate run s3Key videoURL. subst run s3Key videoURL.
  repeat split; run_upload; reflexivity.
Qed.

End OwnerRequest.

Lemma undecodable_video_form_is_400_witness :
  status (serve (FastStart.handlerUploadVideo Example.lib Example.cfg
                   (Example.io "1" Example.zeros)
                   (Example.upload "alice" "thumbnail" "video/mp4")) Example.world)
    = Some StatusBadRequest.
Proof.
  apply undecodable_video_form_is_400 with
      (lib := Example.lib) (cfg := Example.cfg) (io := Example.io "1" Example.zeros)
      (r := Example.upload "alice" "thumbnail" "video/mp4") (w := Example.world)
      (videoID := Example.videoID) (token := "alice") (video := Example.record);
    try reflexivity.
  right. right. eexists. split; reflexivity.
Defined.

Lemma unsupported_video_type_is_400_witness :
  status (serve (RandomKey.handlerUploadVideo Example.lib Example.cfg
                   (Example.io "1" Example.zeros)
                   (Example.upload "alice" "video" "video/webm")) Example.world)
    = Some StatusBadRequest.
Proof.
  apply unsupported_video_type_is_400 with
      (lib := Example.lib) (cfg := Example.cfg) (io := Example.io "1" Example.zeros)
      (r := Example.upload "alice" "video" "video/webm") (w := Example.world)
      (videoID := Example.videoID) (token := "alice") (video := Example.record)
      (form := [("video", {| HeaderContentType := "video/webm"; Content := [x01; x02; x03] |})])
      (header := {| HeaderContentType := "video/webm"; Content := [x01; x02; x03] |});
    try reflexivity.
  vm_compute. discriminate.
Defined.

Lemma probe_failure_is_500_witness :
  status (serve (RandomKey.handlerUploadVideo Example.lib Example.cfg
                   Failing.io_probe (Example.upload "alice" "video" "video/mp4"))
                Example.world)
    = Some StatusInternalServerError.
Proof.
  apply probe_failure_is_500 with
      (lib := Example.lib) (cfg := Example.cfg) (io := Failing.io_probe)
      (r := Example.upload "alice" "video" "video/mp4") (w := Example.world)
      (videoID := Example.videoID) (token := "alice") (video := Example.record)
      (form := [("video", {| HeaderContentType := "video/mp4"; Content := [x01; x02; x03] |})])
      (header := {| HeaderContentType := "video/mp4"; Content := [x01; x02; x03] |})
      (rnd := "1") (e := ErrExec);
    reflexivity.
Defined.

Lemma fast_start_upload_succeeds_witness :
  s3 (final (serve (FastStart.handlerUploadVideo Example.lib Example.cfg
                      (Example.io "1" Example.zeros)
                      (Example.upload "alice" "video" "video/mp4")) Example.world))
    = <[("tubely", "landscape/00000000-0000-0000-0000-000000000001.mp4")
          := {| Body := [x01; x02; x03]; ContentType := "video/mp4" |}]> ∅.
Proof.
  apply fast_start_upload_succeeds with
      (lib := Example.lib) (cfg := Example.cfg) (io := Example.io "1" Example.zeros)
      (r := Example.upload "alice" "video" "video/mp4") (w := Example.world)
      (videoID := Example.videoID) (token := "alice") (video := Example.record)
      (form := [("video", {| HeaderContentType := "video/mp4"; Content := [x01; x02; x03] |})])
      (header := {| HeaderContentType := "video/mp4"; Content := [x01; x02; x03] |})
      (rnd := "1") (aspectRatio := "16:9") (processed := [x01; x02; x03]);
    reflexivity.
Defined.

Lemma fast_start_update_failure_keeps_object_witness :
  status (serve (FastStart.handlerUploadVideo Example.lib Example.cfg
                   Failing.io_update (Example.upload "alice" "video" "video/mp4"))
                Example.world)
    = Some StatusInternalServerError.
Proof.
  apply fast_start_update_failure_keeps_object with
      (lib := Example.lib) (cfg := Example.cfg) (io := Failing.io_update)
      (r := Example.upload "alice" "video" "video/mp4") (w := Example.world)
      (videoID := Example.videoID) (token := "alice") (video := Example.record)
      (form := [("video", {| HeaderContentType := "video/mp4"; Content := [x01; x02; x03] |})])
      (header := {| HeaderContentType := "video/mp4"; Content := [x01; x02; x03] |})
      (rnd := "1") (aspectRatio := "16:9") (processed := [x01; x02; x03]);
    reflexivity.
Defined.

Lemma fast_start_rewrite_failure_is_500_witness :
  status (serve (FastStart.handlerUploadVideo Example.lib Example.cfg
                   Failing.io_ffmpeg (Example.upload "alice" "video" "video/mp4"))
                Example.world)
    = Some StatusInternalServerError.
Proof.
  apply fast_start_rewrite_failure_is_500 with
      (lib := Example.lib) (cfg := Example.cfg) (io := Failing.io_ffmpeg)
      (r := Example.upload "alice" "video" "video/mp4") (w := Example.world)
      (videoID := Example.videoID) (token := "alice") (video := Example.record)
      (form := [("video", {| HeaderContentType := "video/mp4"; Content := [x01; x02; x03] |})])
      (header := {| HeaderContentType := "video/mp4"; Content := [x01; x02; x03] |})
      (rnd := "1") (aspectRatio := "16:9");
    reflexivity.
Defined.

Lemma fast_start_rewrite_failure_leaks_output_witness :
  disk (final (serve (FastStart.handlerUploadVideo Example.lib Example.cfg
                        Failing.io_ffmpeg_partial
                        (Example.upload "alice" "video" "video/mp4")) Example.world))
    !! "/tmp/tubely-upload-1-faststart.mp4" = Some [x01].
Proof.
  apply fast_start_rewrite_failure_leaks_output with
      (lib := Example.lib) (cfg := Example.cfg) (io := Failing.io_ffmpeg_partial)
      (r := Example.upload "alice" "video" "video/mp4") (w := Example.world)
      (videoID := Example.videoID) (token := "alice") (video := Example.record)
      (form := [("video", {| HeaderContentType := "video/mp4"; Content := [x01; x02; x03] |})])
      (header := {| HeaderContentType := "video/mp4"; Content := [x01; x02; x03] |})
      (rnd := "1") (aspectRatio := "16:9") (written := [x01]);
    reflexivity.
Defined.

Lemma random_key_upload_succeeds_witness :
  response (serve (RandomKey.handlerUploadVideo Example.lib Example.cfg
                     (Example.io "1" Example.zeros)
                     (Example.upload "alice" "video" "video/mp4")) Example.world)
    = Some {| Code := StatusOK;
              Body_ := MapBody [("videoURL",
                "https://tubely.s3.us-east-2.amazonaws.com/landscape/videos/AAAAAAAAAAAAAAAAAAAAAAAAAAAAAAAAAAAAAAAAAAA.mp4")] |}.
Proof.
  apply random_key_upload_succeeds with
      (lib := Example.lib) (cfg := Example.cfg) (io := Example.io "1" Example.zeros)
      (r := Example.upload "alice" "video" "video/mp4") (w := Example.world)
      (videoID := Example.videoID) (token := "alice") (video := Example.record)
      (form := [("video", {| HeaderContentType := "video/mp4"; Content := [x01; x02; x03] |})])
      (header := {| HeaderContentType := "video/mp4"; Content := [x01; x02; x03] |})
      (rnd := "1") (aspectRatio := "16:9") (key := Example.zeros);
    reflexivity.
Defined.

(** ** Failures of the thumbnail handler *)

(** The checks that the extension and the owner pass, as the handler
    evaluates them. *)
Ltac thumbnail_facts :=
  match goal with
  | Hext : ?ext = ".jpg" \/ ?ext = ".png", Howner : UserID ?video = ?userID |- _ =>
      assert (Hguard : negb (negb (String.eqb ext ".jpg") && negb (String.eqb ext ".png"))
                       = true)
        by (destruct Hext as [E | E]; rewrite E; reflexivity);
      assert (Hown : bool_decide (UserID video = userID) = true)
        by (apply bool_decide_eq_true_2; exact Howner)
  end.

Section ThumbnailRequest.
Variables (lib : Lib) (cfg : apiConfig) (io : Oracle) (r : Request) (w : World).
Variables (videoID userID : UUID) (token : string).
Hypothesis Hid : uuid_Parse lib (PathVideoID r) = Some videoID.
Hypothesis Htoken : auth_GetBearerToken lib (Header r) = Some token.
Hypothesis Hjwt : auth_ValidateJWT lib token (jwtSecret cfg) = Some userID.

(** X13. A thumbnail upload whose body is no multipart form, or whose form has
    no file named "thumbnail", is answered 400 whoever sends it: the
    metadata store is not consulted and nothing changes. *)
Theorem undecodable_thumbnail_form_is_400 :
  (Multipart r = None
   \/ exists form, Multipart r = Some form /\ form_file form "thumbnail" = None) ->
  let run := serve (handlerUploadThumbnail lib cfg io r) w in
  status run = Some StatusBadRequest
  /\ (Fetch ∉ steps (events run))
  /\ final run = w.
Proof.
  intros [Hnone | (form & Hform & Hfile)] run; subst run;
    repeat split; run_handler; try (destruct w; reflexivity);
    intros Hin; repeat (apply elem_of_cons in Hin as [Hin | Hin]; [discriminate Hin|]);
    inversion Hin.
Qed.

Variables (form : list (string * FileHeader)) (header : FileHeader).
Variables (ext : string) (rest : list string) (video : Video).
Hypothesis Hform : Multipart r = Some form.
Hypothesis Hfile : form_file form "thumbnail" = Some header.
Hypothesis Hexts :
  Mime.ExtensionsByType (mime_ParseMediaType lib) (mime_system lib)
    (HeaderContentType header) = Some (ext :: rest).
Hypothesis Hext : ext = ".jpg" \/ ext = ".png".
Hypothesis Hrecord : db w !! videoID = Some video.
Hypothesis Howner : UserID video = userID.

(** X16. When the random name cannot be drawn, or the asset file cannot be
    created, the thumbnail handler answers 500 and changes nothing. *)
Theorem thumbnail_name_failure_is_500 :
  (randRead io = None \/ (is_Some (randRead io) /\ createOk io = false)) ->
  status (serve (handlerUploadThumbnail lib cfg io r) w) = Some StatusInternalServerError
  /\ final (serve (handlerUploadThumbnail lib cfg io r) w) = w.
Proof.
  thumbnail_facts.
  intros [Hrand | [[key Hrand] Hcreate]];
    split; run_handler; destruct w; reflexivity.
Qed.

(** X17. The thumbnail handler does not clean up after a failed write: when
    [io.Copy] fails, the answer is 500 and the record is unchanged, but the
    asset file stays on disk with the bytes written so far. *)
Theorem thumbnail_copy_failure_leaves_partial_file (key written : list byte) :
  randRead io = Some key ->
  createOk io = true ->
  copyAsset io = Some written ->
  let run := serve (handlerUploadThumbnail lib cfg io r) w in
  let assetPath := filepath_Join lib (assetsRoot cfg) (Base64.EncodeToString key +:+ ext) in
  status run = Some StatusInternalServerError
  /\ db (final run) = db w
  /\ disk (final run) !! assetPath = Some written.
Proof.
  thumbnail_facts.
  intros Hrand Hcreate Hcopy run assetPath. subst run assetPath.
  repeat split; run_handler; try reflexivity. apply lookup_insert_eq.
Qed.

(** X18. Nor does it roll back: when the update of the record fails after the
    file was written, the answer is 500 and the record is unchanged, but the
    asset file stays on disk with the uploaded content. *)
Theorem thumbnail_update_failure_keeps_file (key : list byte) :
  randRead io = Some key ->
  createOk io = true ->
  copyAsset io = None ->
  updateVideoOk io = false ->
  let run := serve (handlerUploadThumbnail lib cfg io r) w in
  let assetPath := filepath_Join lib (assetsRoot cfg) (Base64.EncodeToString key +:+ ext) in
  status run = Some StatusInternalServerError
  /\ db (final run) = db w
  /\ disk (final run) !! assetPath = Some (Content header).
Proof.
  thumbnail_facts.
  intros Hrand Hcreate Hcopy Hupdate run assetPath. subst run assetPath.
  repeat split; run_handler; try reflexivity. apply lookup_insert_eq.
Qed.

End ThumbnailRequest.

Lemma undecodable_thumbnail_form_is_400_witness :
  status (serve (handlerUploadThumbnail Example.lib Example.cfg
                   (Example.io "1" Example.zeros)
                   (Example.upload "alice" "video" "image/png")) Example.world)
    = Some StatusBadRequest.
Proof.
  apply undecodable_thumbnail_form_is_400 with
      (lib := Example.lib) (cfg := Example.cfg) (io := Example.io "1" Example.zeros)
      (r := Example.upload "alice" "video" "image/png") (w := Example.world)
      (videoID := Example.videoID) (userID := Example.alice) (token := "alice");
    try reflexivity.
  right. eexists. split; reflexivity.
Defined.

Lemma thumbnail_name_failure_is_500_witness :
  status (serve (handlerUploadThumbnail Example.lib Example.cfg Failing.io_rand
                   (Example.upload "alice" "thumbnail" "image/png")) Example.world)
    = Some StatusInternalServerError.
Proof.
  apply thumbnail_name_failure_is_500 with
      (lib := Example.lib) (cfg := Example.cfg) (io := Failing.io_rand)
      (r := Example.upload "alice" "thumbnail" "image/png") (w := Example.world)
      (videoID := Example.videoID) (userID := Example.alice) (token := "alice")
      (form := [("thumbnail", {| HeaderContentType := "image/png";
                                 Content := [x01; x02; x03] |})])
      (header := {| HeaderContentType := "image/png"; Content := [x01; x02; x03] |})
      (ext := ".png") (rest := []) (video := Example.record);
    try reflexivity.
  - right. reflexivity.
  - left. reflexivity.
Defined.

Lemma thumbnail_copy_failure_leaves_partial_file_witness :
  disk (final (serve (handlerUploadThumbnail Example.lib Example.cfg Failing.io_asset
                        (Example.upload "alice" "thumbnail" "image/png")) Example.world))
    !! "assets/AAAAAAAAAAAAAAAAAAAAAAAAAAAAAAAAAAAAAAAAAAA.png" = Some [x01].
Proof.
  apply thumbnail_copy_failure_leaves_partial_file with
      (lib := Example.lib) (cfg := Example.cfg) (io := Failing.io_asset)
      (r := Example.upload "alice" "thumbnail" "image/png") (w := Example.world)
      (videoID := Example.videoID) (userID := Example.alice) (token := "alice")
      (form := [("thumbnail", {| HeaderContentType := "image/png";
                                 Content := [x01; x02; x03] |})])
      (header := {| HeaderContentType := "image/png"; Content := [x01; x02; x03] |})
      (ext := ".png") (rest := []) (video := Example.record)
      (key := Example.zeros);
    try reflexivity.
  right. reflexivity.
Defined.

Lemma thumbnail_update_failure_keeps_file_witness :
  disk (final (serve (handlerUploadThumbnail Example.lib Example.cfg Failing.io_update
                        (Example.upload "alice" "thumbnail" "image/png")) Example.world))
    !! "assets/AAAAAAAAAAAAAAAAAAAAAAAAAAAAAAAAAAAAAAAAAAA.png" = Some [x01; x02; x03].
Proof.
  apply thumbnail_update_failure_keeps_file with
      (lib := Example.lib) (cfg := Example.cfg) (io := Failing.io_update)
      (r := Example.upload "alice" "thumbnail" "image/png") (w := Example.world)
      (videoID := Example.videoID) (userID := Example.alice) (token := "alice")
      (form := [("thumbnail", {| HeaderContentType := "image/png";
                                 Content := [x01; x02; x03] |})])
      (header := {| HeaderContentType := "image/png"; Content := [x01; x02; x03] |})
      (ext := ".png") (rest := []) (video := Example.record)
      (key := Example.zeros);
    try reflexivity.
  right. reflexivity.
Defined.

(** ** What a handler may change *)

(** X21. The record is written by the last fallible step: an upload that is not
    answered 200 leaves the metadata store as it was. *)
Theorem record_unchanged_unless_ok :
  forall (lib : Lib) (cfg : apiConfig) (io : Oracle) (r : Request) (w : World),
    (status (serve (FastStart.handlerUploadVideo lib cfg io r) w) <> Some StatusOK ->
     db (final (serve (FastStart.handlerUploadVideo lib cfg io r) w)) = db w)
    /\ (status (serve (RandomKey.handlerUploadVideo lib cfg io r) w) <> Some StatusOK ->
        db (final (serve (RandomKey.handlerUploadVideo lib cfg io r) w)) = db w)
    /\ (status (serve (handlerUploadThumbnail lib cfg io r) w) <> Some StatusOK ->
        db (final (serve (handlerUploadThumbnail lib cfg io r) w)) = db w).
Proof.
  intros lib cfg io r w.
  repeat split; all_paths; intros Hne; try reflexivity; exfalso; apply Hne; reflexivity.
Qed.

Lemma record_unchanged_unless_ok_witness :
  db (final (serve (handlerUploadThumbnail Example.lib Example.cfg
                      (Example.io "1" Example.zeros)
                      (Example.upload "alice" "thumbnail" "image/jpeg")) Example.world))
    = db Example.world.
Proof.
  apply (record_unchanged_unless_ok Example.lib Example.cfg (Example.io "1" Example.zeros)
           (Example.upload "alice" "thumbnail" "image/jpeg") Example.world).
  vm_compute. discriminate.
Defined.

(** X22. Only the owner changes a record: whenever a handler leaves the metadata
    store different from what it was, the bearer token validated to the user
    who owns the record fetched under the identifier of the path. *)
Theorem record_changed_only_by_owner :
  forall (lib : Lib) (cfg : apiConfig) (io : Oracle) (r : Request) (w : World)
         (h : Lib -> apiConfig -> Oracle -> Request -> Handler unit),
    h = FastStart.handlerUploadVideo \/ h = RandomKey.handlerUploadVideo
    \/ h = handlerUploadThumbnail ->
    db (final (serve (h lib cfg io r) w)) <> db w ->
    exists videoID token video,
      uuid_Parse lib (PathVideoID r) = Some videoID
      /\ auth_GetBearerToken lib (Header r) = Some token
      /\ db w !! videoID = Some video
      /\ auth_ValidateJWT lib token (jwtSecret cfg) = Some (UserID video).
Proof.
  intros lib cfg io r w h [-> | [-> | ->]]; all_paths; intros Hne;
    try (exfalso; apply Hne; reflexivity);
    match goal with
    | H : bool_decide (UserID _ = _) = true |- _ =>
        apply bool_decide_eq_true_1 in H; subst
    end;
    do 3 eexists; repeat split; eassumption.
Qed.

Lemma record_changed_only_by_owner_witness :
  exists videoID token video,
    uuid_Parse Example.lib (PathVideoID (Example.upload "alice" "video" "video/mp4"))
      = Some videoID
    /\ auth_GetBearerToken Example.lib (Header (Example.upload "alice" "video" "video/mp4"))
       = Some token
    /\ db Example.world !! videoID = Some video
    /\ auth_ValidateJWT Example.lib token (jwtSecret Example.cfg) = Some (UserID video).
Proof.
  apply (record_changed_only_by_owner Example.lib Example.cfg
           (Example.io "1" Example.zeros) (Example.upload "alice" "video" "video/mp4")
           Example.world FastStart.handlerUploadVideo).
  - left. reflexivity.
  - vm_compute. discriminate.
Defined.

Ltac file_kept H :=
  repeat first
    [ apply lookup_delete_Some in H as [? H]
    | apply lookup_insert_Some in H as [[? ?] | [? H]]; [congruence|] ];
  exact H.

(** A file found after the handler returned is one that was there before,
    or what a failed ffmpeg left at its output path. *)
Ltac file_kept_or_leftover H :=
  repeat first
    [ apply lookup_delete_Some in H as [? H]
    | apply lookup_insert_Some in H as [[? ?] | [? H]];
      [ first [ congruence
              | right; subst; eexists; split; [reflexivity|]; split;
                [symmetry; apply temp_file_name_suffix|]; split; reflexivity ] |] ];
  left; exact H.

(** X12. What the video handlers leave on the local disk.  The random-key
    version leaves nothing: every file found after the handler returned was
    there before, with the same content.  The fast-start version removes
    its temporary file on every path and the rewritten file after a
    successful rewrite, but not what a failed ffmpeg left at its output
    path: a file found afterwards that was not there before is that
    leftover, named after the temporary file, and the answer was 500. *)
Theorem video_upload_leaves_no_file :
  forall (lib : Lib) (cfg : apiConfig) (io : Oracle) (r : Request) (w : World)
         (path : string) (data : list byte),
    (disk (final (serve (RandomKey.handlerUploadVideo lib cfg io r) w)) !! path = Some data ->
     disk w !! path = Some data)
    /\ (disk (final (serve (FastStart.handlerUploadVideo lib cfg io r) w)) !! path = Some data ->
        disk w !! path = Some data
        \/ exists rnd : string,
             tempRandom io = Some rnd
             /\ path = joinPath (os_TempDir lib)
                         ("tubely-upload-" +:+ rnd +:+ "-faststart.mp4")
             /\ ffmpegPartial io = Some data
             /\ status (serve (FastStart.handlerUploadVideo lib cfg io r) w)
                = Some StatusInternalServerError).
Proof.
  intros lib cfg io r w path data.
  split.
  - all_paths; intros Hfile; file_kept Hfile.
  - all_paths; intros Hfile; file_kept_or_leftover Hfile.
Qed.

Lemma video_upload_leaves_no_file_witness :
  disk (final (serve (RandomKey.handlerUploadVideo Example.lib Example.cfg
                        (Example.io "1" Example.zeros)
                        (Example.upload "alice" "video" "video/mp4"))
                     (with_disk (insert "notes.txt" [x01]) Example.world)))
    !! "notes.txt" = Some [x01]
  /\ disk (with_disk (insert "notes.txt" [x01]) Example.world) !! "notes.txt" = Some [x01].
Proof.
  split; [vm_compute; reflexivity|].
  apply (proj1 (video_upload_leaves_no_file Example.lib Example.cfg
                  (Example.io "1" Example.zeros)
                  (Example.upload "alice" "video" "video/mp4")
                  (with_disk (insert "notes.txt" [x01]) Example.world) "notes.txt" [x01])).
  vm_compute. reflexivity.
Defined.

(** X20. The thumbnail handler never touches the object store, and the only file
    it may create or change is the asset named after its random draw. *)
Theorem thumbnail_upload_footprint :
  forall (lib : Lib) (cfg : apiConfig) (io : Oracle) (r : Request) (w : World),
    let run := serve (handlerUploadThumbnail lib cfg io r) w in
    s3 (final run) = s3 w
    /\ forall path : string,
         disk (final run) !! path <> disk w !! path ->
         exists key ext,
           randRead io = Some key
           /\ (ext = ".jpg" \/ ext = ".png")
           /\ path = filepath_Join lib (assetsRoot cfg) (Base64.EncodeToString key +:+ ext).
Proof.
  intros lib cfg io r w run. subst run.
  split; [all_paths; reflexivity|].
  intros path. all_paths; intros Hne; try (exfalso; apply Hne; reflexivity).
  all: match goal with
       | H : negb (negb (?e =? ".jpg")%string && negb (?e =? ".png")%string) = true |- _ =>
           assert (Hext : e = ".jpg" \/ e = ".png")
             by (destruct (String.eqb_spec e ".jpg"); [left; assumption|];
                 destruct (String.eqb_spec e ".png"); [right; assumption | discriminate H])
       end.
  all: do 2 eexists; split; [reflexivity|]; split; [exact Hext|].
  all: match goal with
       | |- ?q = ?p =>
           destruct (decide (p = q)) as [E|E]; [symmetry; exact E|];
           exfalso; apply Hne; rewrite ?lookup_insert_ne by exact E; reflexivity
       end.
Qed.

(** ** Invariants of the metadata store *)

(** X23. On a well-formed store a handler changes at most the record the
    request addresses: when the record found under an identifier after the
    handler returned differs from the one found before, that identifier is
    the UUID of the path. *)
Theorem upload_changes_only_addressed_record :
  forall (lib : Lib) (cfg : apiConfig) (io : Oracle) (r : Request) (w : World)
         (h : Lib -> apiConfig -> Oracle -> Request -> Handler unit),
    h = FastStart.handlerUploadVideo \/ h = RandomKey.handlerUploadVideo
    \/ h = handlerUploadThumbnail ->
    db_wf (db w) ->
    forall id : UUID,
      db (final (serve (h lib cfg io r) w)) !! id <> db w !! id ->
      uuid_Parse lib (PathVideoID r) = Some id.
Proof.
  intros lib cfg io r w h [-> | [-> | ->]] Hwf; all_paths; intros id Hne;
    try (exfalso; apply Hne; reflexivity);
    match goal with
    | Hrec : db w !! ?videoID = Some ?v |- _ =>
        pose proof (Hwf _ _ Hrec) as Hkey;
        destruct (decide (ID v = id)) as [E | E];
        [ congruence
        | exfalso; apply Hne; rewrite lookup_insert_ne by exact E; reflexivity ]
    end.
Qed.

Lemma upload_changes_only_addressed_record_witness :
  uuid_Parse Example.lib (PathVideoID (Example.upload "alice" "video" "video/mp4"))
    = Some Example.videoID.
Proof.
  apply (upload_changes_only_addressed_record Example.lib Example.cfg
           (Example.io "1" Example.zeros) (Example.upload "alice" "video" "video/mp4")
           Example.world RandomKey.handlerUploadVideo).
  - right. left. reflexivity.
  - exact example_world_wf.
  - vm_compute. discriminate.
Defined.

Ltac record_kept Hwf id :=
  match goal with
  | Hrec : db _ !! ?videoID = Some ?v |- _ =>
      pose proof (Hwf _ _ Hrec) as Hkey;
      destruct (decide (ID v = id)) as [E | E];
      [ subst id; rewrite lookup_insert_eq; rewrite Hkey, Hrec; cbn; auto
      | rewrite lookup_insert_ne by exact E;
        match goal with |- context [db ?w !! id] => destruct (db w !! id) end; auto ]
  | _ => match goal with |- context [db ?w !! id] => destruct (db w !! id) end; auto
  end.

(** X24. On a well-formed store no handler creates or deletes a record, and none
    changes the identifier or the owner of a record.  A video upload leaves
    every thumbnail URL as it was, a thumbnail upload every video URL. *)
Theorem uploads_keep_records :
  forall (lib : Lib) (cfg : apiConfig) (io : Oracle) (r : Request) (w : World),
    db_wf (db w) ->
    records_keep ThumbnailURL (db w)
      (db (final (serve (FastStart.handlerUploadVideo lib cfg io r) w)))
    /\ records_keep ThumbnailURL (db w)
         (db (final (serve (RandomKey.handlerUploadVideo lib cfg io r) w)))
    /\ records_keep VideoURL (db w)
         (db (final (serve (handlerUploadThumbnail lib cfg io r) w))).
Proof.
  intros lib cfg io r w Hwf. unfold records_keep.
  repeat split; all_paths; intros id; record_kept Hwf id.
Qed.

Lemma uploads_keep_records_witness :
  records_keep VideoURL (db Example.world)
    (db (final (serve (handlerUploadThumbnail Example.lib Example.cfg
                         (Example.io "1" Example.zeros)
                         (Example.upload "alice" "thumbnail" "image/png"))
                      Example.world))).
Proof.
  apply (uploads_keep_records Example.lib Example.cfg (Example.io "1" Example.zeros)
           (Example.upload "alice" "thumbnail" "image/png") Example.world).
  exact example_world_wf.
Defined.


(** ** Repeating an upload *)

(** The record read back from a store in which it was just filed. *)
Ltac resolve_record :=
  match goal with
  | |- context [<[?k := _]> _ !! ?n] =>
      destruct (decide (k = n)) as [E | E];
      [ rewrite E | rewrite lookup_insert_ne by exact E ]
  end.

Ltac all_paths_again :=
  unfold_handlers; cbn;
  repeat (first [ progress rewrite lookup_insert_eq
                | progress rewrite temp_file_name, fast_start_of_mp4
                | progress rewrite fast_start_of_mp4
                | take_branch
                | resolve_record
                | split_outcome ]; cbn).

Lemma World_eq (a b : World) :
  db a = db b -> disk a = disk b -> s3 a = s3 b -> a = b.
Proof. destruct a, b; cbn; intros -> -> ->; reflexivity. Qed.

Lemma disk_after_upload (d : gmap string (list byte)) (tmp out : string)
    (a b c : list byte) :
  let after d := delete tmp (delete out (<[out := c]> (<[tmp := b]> (<[tmp := a]> d)))) in
  after (after d) = after d.
Proof.
  intros after. subst after. cbn beta.
  apply map_eq. intros k.
  destruct (decide (tmp = k)) as [<- | Htmp]; [rewrite !lookup_delete_eq; reflexivity|].
  rewrite !(lookup_delete_ne _ tmp k) by exact Htmp.
  destruct (decide (out = k)) as [<- | Hout]; [rewrite !lookup_delete_eq; reflexivity|].
  rewrite !(lookup_delete_ne _ out k) by exact Hout.
  rewrite !lookup_insert_ne by assumption.
  rewrite lookup_delete_ne by exact Htmp. rewrite lookup_delete_ne by exact Hout.
  rewrite !lookup_insert_ne by assumption. reflexivity.
Qed.

(** X11. The fast-start version is idempotent: repeating a successful upload
    (same request, same outcomes of the operations) gives the same answer
    and leaves the record, the bucket and the disk as the first upload left
    them. *)
Theorem fast_start_upload_idempotent :
  forall (lib : Lib) (cfg : apiConfig) (io : Oracle) (r : Request) (w : World),
    let run1 := serve (FastStart.handlerUploadVideo lib cfg io r) w in
    let run2 := serve (FastStart.handlerUploadVideo lib cfg io r) (final run1) in
    status run1 = Some StatusOK ->
    response run2 = response run1 /\ final run2 = final run1.
Proof.
  intros lib cfg io r w run1 run2 Hok. subst run1 run2.
  pose (again := fun w' : World => serve (FastStart.handlerUploadVideo lib cfg io r) w').
  assert (Hagain : forall w', again w' = serve (FastStart.handlerUploadVideo lib cfg io r) w')
    by reflexivity.
  change (serve (FastStart.handlerUploadVideo lib cfg io r)
            (final (serve (FastStart.handlerUploadVideo lib cfg io r) w)))
    with (again (final (serve (FastStart.handlerUploadVideo lib cfg io r) w))).
  clearbody again.
  enough (Hboth : (response (again (final (serve (FastStart.handlerUploadVideo lib cfg io r) w))),
                   final (again (final (serve (FastStart.handlerUploadVideo lib cfg io r) w))))
                  = (response (serve (FastStart.handlerUploadVideo lib cfg io r) w),
                     final (serve (FastStart.handlerUploadVideo lib cfg io r) w)))
    by (injection Hboth as -> ->; split; reflexivity).
  revert Hok. all_paths; intros Hok; try not_ok Hok.
  rewrite Hagain. clear Hagain again. all_paths_again.
  all: apply pair_equal_spec; split; [reflexivity|].
  all: apply World_eq; unfold os_Remove, write_file, with_db, with_s3; cbn;
    [ rewrite insert_insert_eq; reflexivity
    | exact (disk_after_upload _ _ _ _ _ _)
    | rewrite insert_insert_eq; reflexivity ].
Qed.

Lemma fast_start_upload_idempotent_witness :
  let h := FastStart.handlerUploadVideo Example.lib Example.cfg
             (Example.io "1" Example.zeros) (Example.upload "alice" "video" "video/mp4") in
  final (serve h (final (serve h Example.world))) = final (serve h Example.world).
Proof.
  apply (fast_start_upload_idempotent Example.lib Example.cfg (Example.io "1" Example.zeros)
           (Example.upload "alice" "video" "video/mp4") Example.world).
  vm_compute. reflexivity.
Defined.

(** ** The helpers of the video handlers *)

Lemma substring_length (s : string) (k : nat) :
  (k <= String.length s)%nat -> String.length (String.substring 0 k s) = k.
Proof.
  revert k. induction s as [|c s IH]; intros [|k] H; cbn in *; try lia.
  rewrite IH by lia. reflexivity.
Qed.

(** X26. [processVideoForFastStart] never hands ffmpeg its input as the output:
    the path it returns is ten bytes longer than the one it was given, and
    it returns a path only when ffmpeg succeeded on that pair. *)
Theorem fast_start_never_overwrites_input :
  forall (ffmpeg : string -> string -> bool) (filePath outputFilePath : string),
    processVideoForFastStart ffmpeg filePath = Ok outputFilePath ->
    outputFilePath <> filePath
    /\ String.length outputFilePath = (String.length filePath + 10)%nat
    /\ ffmpeg filePath outputFilePath = true.
Proof.
  intros ffmpeg filePath out. unfold processVideoForFastStart, slice_to.
  change (String.length ".mp4") with 4%nat.
  destruct (Z.leb_spec 0 (Z.of_nat (String.length filePath) - Z.of_nat 4)) as [Hlo|];
    [|discriminate].
  destruct (Z.leb_spec (Z.of_nat (String.length filePath) - Z.of_nat 4)
              (Z.of_nat (String.length filePath))) as [Hhi|]; [|discriminate].
  cbn [andb].
  destruct (ffmpeg _ _) eqn:Hrun; [|discriminate].
  intros H. injection H as <-.
  assert (Hlen : String.length
                   (String.substring 0
                      (Z.to_nat (Z.of_nat (String.length filePath) - Z.of_nat 4)) filePath
                    +:+ "-faststart.mp4")
                 = (String.length filePath + 10)%nat).
  { rewrite string_length_append, substring_length by lia.
    change (String.length "-faststart.mp4") with 14%nat. lia. }
  repeat split; [|exact Hlen|exact Hrun].
  intros E. rewrite E in Hlen. lia.
Qed.

Lemma fast_start_never_overwrites_input_witness :
  processVideoForFastStart (fun _ _ => true) "/tmp/clip.mp4" = Ok "/tmp/clip-faststart.mp4"
  /\ "/tmp/clip-faststart.mp4" <> "/tmp/clip.mp4".
Proof.
  split; [reflexivity|].
  apply (fast_start_never_overwrites_input (fun _ _ => true) "/tmp/clip.mp4"
           "/tmp/clip-faststart.mp4").
  reflexivity.
Defined.

Lemma zero_over (y : Float64.float64) :
  (exists s, Float64.div (Float64.of_int 0) y = S754_zero s)
  \/ Float64.div (Float64.of_int 0) y = S754_nan.
Proof. destruct y as [s | s | | s m e]; cbn; eauto. Qed.

(** X27. A first stream of width 0 is classified "other", whatever its height:
    the quotient is a zero, or NaN when the height is 0 as well. *)
Theorem zero_width_is_other :
  forall (h : Z) (rest : list Stream) (stdout : list byte)
         (unmarshal : list byte -> option FFProbeOutput),
    unmarshal stdout = Some {| Streams := {| Width := 0; Height := h |} :: rest |} ->
    getVideoAspectRatio (Some stdout) unmarshal = Ok "other".
Proof.
  intros h rest stdout unmarshal Hu.
  unfold getVideoAspectRatio, classify. rewrite Hu. cbn [Streams].
  unfold ratio_of. cbn [Width Height].
  destruct (zero_over (Float64.of_int h)) as [[s ->] | ->];
    [destruct s|]; vm_compute; reflexivity.
Qed.

Lemma zero_width_is_other_witness :
  getVideoAspectRatio (Some [])
    (fun _ => Some {| Streams := [{| Width := 0; Height := 1080 |}] |}) = Ok "other".
Proof.
  apply (zero_width_is_other 1080 [] []
           (fun _ => Some {| Streams := [{| Width := 0; Height := 1080 |}] |})).
  reflexivity.
Defined.

(** ** Random names *)

Lemma encode_char_url_safe (i : Z) :
  0 <= i < 64 -> url_safe (Base64.encode_char i) = true.
Proof.
  intros Hi.
  assert (Hall : forallb (fun n => url_safe (Base64.encode_char (Z.of_nat n))) (seq 0 64)
                 = true) by (vm_compute; reflexivity).
  rewrite forallb_forall in Hall.
  specialize (Hall (Z.to_nat i)). rewrite Z2Nat.id in Hall by lia.
  apply Hall, in_seq. lia.
Qed.

Lemma sextet_url_safe (val shift : Z) : url_safe (Base64.sextet val shift) = true.
Proof.
  unfold Base64.sextet. apply encode_char_url_safe.
  change 63 with (Z.ones 6). rewrite Z.land_ones by lia.
  pose proof (Z.mod_pos_bound (Z.shiftr val shift) (2 ^ 6)). lia.
Qed.

Lemma EncodeToString_length_step (a b c : byte) (rest : list byte) :
  String.length (Base64.EncodeToString (a :: b :: c :: rest))
    = S (S (S (S (String.length (Base64.EncodeToString rest))))).
Proof. reflexivity. Qed.

Lemma EncodeToString_safe_fuel (n : nat) :
  forall key : list byte,
    (List.length key <= n)%nat ->
    Forall (fun c => url_safe c = true)
      (list_ascii_of_string (Base64.EncodeToString key))
    /\ Z.of_nat (String.length (Base64.EncodeToString key))
       = (4 * Z.of_nat (List.length key) + 2) / 3.
Proof.
  induction n as [|n IH]; intros key Hlen.
  - destruct key; [|cbn in Hlen; lia]. split; [constructor | reflexivity].
  - destruct key as [|a [|b [|c rest]]]; cbn [Base64.EncodeToString].
    + split; [constructor | reflexivity].
    + split; [repeat constructor; apply sextet_url_safe | reflexivity].
    + split; [repeat constructor; apply sextet_url_safe | reflexivity].
    + destruct (IH rest) as [Hsafe Hsize]; [cbn in Hlen; lia|].
      split.
      * cbn [list_ascii_of_string]. repeat (constructor; [apply sextet_url_safe|]).
        exact Hsafe.
      * rewrite EncodeToString_length_step. cbn [List.length].
        replace (4 * Z.of_nat (S (S (S (List.length rest)))) + 2)
          with ((4 * Z.of_nat (List.length rest) + 2) + 4 * 3) by lia.
        rewrite Z.div_add by lia. rewrite <- Hsize. lia.
Qed.

(** X28. The random part of an asset name or an object key consists of letters,
    digits, "-" and "_" only, so it holds no path separator and no dot; n
    random bytes give (4n + 2) / 3 characters, 43 for the 32 bytes the
    handlers draw. *)
Theorem random_name_url_safe :
  forall key : list byte,
    Forall (fun c => url_safe c = true)
      (list_ascii_of_string (Base64.EncodeToString key))
    /\ Z.of_nat (String.length (Base64.EncodeToString key))
       = (4 * Z.of_nat (List.length key) + 2) / 3.
Proof. intros key. apply (EncodeToString_safe_fuel (List.length key)). lia. Qed.

(** ** Instances of the lemmas of Part II *)

Lemma thumbnail_fetch_failure_is_404_witness :
  status (serve (handlerUploadThumbnail Example.lib Example.cfg
                   (Example.io "1" Example.zeros)
                   (Example.upload "alice" "thumbnail" "image/png")) Example.empty_world)
    = Some StatusNotFound.
Proof.
  apply thumbnail_fetch_failure_is_404 with
      (lib := Example.lib) (cfg := Example.cfg) (io := Example.io "1" Example.zeros)
      (r := Example.upload "alice" "thumbnail" "image/png") (w := Example.empty_world)
      (videoID := Example.videoID) (userID := Example.alice) (token := "alice");
    reflexivity.
Defined.

Lemma put_failure_stops_fast_start_witness :
  let run := serve (FastStart.handlerUploadVideo Example.lib Example.cfg
                      Example.io_put_fails
                      (Example.upload "alice" "video" "video/mp4")) Example.world in
  status run = Some StatusInternalServerError
  /\ db (final run) = db Example.world
  /\ s3 (final run) = s3 Example.world.
Proof.
  apply (put_failure_stops_fast_start Example.lib Example.cfg Example.io_put_fails
           (Example.upload "alice" "video" "video/mp4") Example.world);
    [reflexivity | vm_compute; discriminate].
Defined.

Lemma other_thumbnail_type_rejected_witness :
  status (serve (handlerUploadThumbnail Example.lib Example.cfg
                   (Example.io "1" Example.zeros)
                   (Example.upload "alice" "thumbnail" "text/plain")) Example.world)
    = Some StatusBadRequest.
Proof.
  apply other_thumbnail_type_rejected with
      (lib := Example.lib) (cfg := Example.cfg) (io := Example.io "1" Example.zeros)
      (r := Example.upload "alice" "thumbnail" "text/plain") (w := Example.world)
      (videoID := Example.videoID) (userID := Example.alice) (token := "alice")
      (form := [("thumbnail", {| HeaderContentType := "text/plain";
                                 Content := [x01; x02; x03] |})])
      (header := {| HeaderContentType := "text/plain"; Content := [x01; x02; x03] |});
    try reflexivity; vm_compute; discriminate.
Defined.

Lemma png_thumbnail_accepted_witness :
  status (serve (handlerUploadThumbnail Example.lib Example.cfg
                   (Example.io "1" Example.zeros)
                   (Example.upload "alice" "thumbnail" "image/png")) Example.world)
    = Some StatusOK.
Proof.
  apply png_thumbnail_accepted with
      (lib := Example.lib) (cfg := Example.cfg) (io := Example.io "1" Example.zeros)
      (r := Example.upload "alice" "thumbnail" "image/png") (w := Example.world)
      (videoID := Example.videoID) (userID := Example.alice) (token := "alice")
      (form := [("thumbnail", {| HeaderContentType := "image/png";
                                 Content := [x01; x02; x03] |})])
      (header := {| HeaderContentType := "image/png"; Content := [x01; x02; x03] |})
      (video := Example.record) (key := Example.zeros);
    reflexivity.
Defined.
